(** * ghstats: pull-request statistics (stats.py)

    A shallow embedding of [stats.py]: the [User] resolver with its class-level
    cache, the [ScyllaPR] record and its predicates, the paginated fetcher
    [getGithubData], the reporter ([printHistogram], [printStats]) and the
    orchestration at the bottom of the script.

    Effects are explicit.  A [world] holds the requests sent so far, the two
    output streams and the class attribute [User.cache]; a computation is a
    function from a world to an [outcome] and a new world.  What the script
    takes from outside (the HTTP server, dateutil's parser, the clock, the
    built-in [repr] of containers) is collected in the class [Runtime].

    The file has the model first, then explicit servers and records to run
    it on, then the vocabulary of the statements, then the properties. *)

From Stdlib Require Import ZArith List Ascii String Lia Bool.
From stdpp Require Import base tactics option list gmap strings pretty sorting.
From Equations Require Import Equations.
From Equations.Prop Require Import Logic.

Local Open Scope string_scope.
Local Open Scope Z_scope.
Local Set Warnings "-register-all".

(** ** Python values and exceptions *)

Definition TAB : string := String (ascii_of_nat 9) EmptyString.
Definition NL : string := String (ascii_of_nat 10) EmptyString.

(** The exceptions the script can meet.  [KeyError] carries the missing key. *)
Inductive exn : Type :=
  | KeyError (key : string)
  | TypeError
  | ValueError
  | IndexError
  | ZeroDivisionError
  | OverflowError
  | RequestException
  | Exception (msg : string).

(** Why a computation stops without a value: an exception, [sys.exit(code)],
    or the fuel of the model's [while True] loop ran out. *)
Inductive abort : Type :=
  | Exn (e : exn)
  | SysExit (code : Z)
  | OutOfFuel.

Inductive outcome (A : Type) : Type :=
  | Ret (a : A)
  | Abort (r : abort).
Arguments Ret {A} a.
Arguments Abort {A} r.

Definition Raise {A : Type} (e : exn) : outcome A := Abort (Exn e).

Definition obind {A B : Type} (o : outcome A) (f : A -> outcome B) : outcome B :=
  match o with
  | Ret a => f a
  | Abort r => Abort r
  end.

Notation "'let?' x ':=' o 'in' k" := (obind o (fun x => k))
  (at level 10, x name, o at level 100, k at level 200).

Fixpoint omap {A B : Type} (f : A -> outcome B) (l : list A) : outcome (list B) :=
  match l with
  | [] => Ret []
  | x :: l' =>
      let? y := f x in
      let? ys := omap f l' in
      Ret (y :: ys)
  end.

(** A decoded JSON document, as [resp.json()] returns it.  An object keeps
    its keys in insertion order, like a Python dict; numbers are integers,
    as the numeric fields of the API are. *)
Inductive json : Type :=
  | JNull
  | JBool (b : bool)
  | JNum (n : Z)
  | JStr (s : string)
  | JArr (items : list json)
  | JObj (fields : list (string * json)).

(** Python truthiness of a decoded JSON value. *)
Definition truthy (v : json) : bool :=
  match v with
  | JNull => false
  | JBool b => b
  | JNum n => negb (n =? 0)
  | JStr s => negb (String.eqb s EmptyString)
  | JArr l => match l with [] => false | _ => true end
  | JObj l => match l with [] => false | _ => true end
  end.

Fixpoint assoc_get {V : Type} (k : string) (l : list (string * V)) : option V :=
  match l with
  | [] => None
  | (k', v) :: l' => if String.eqb k k' then Some v else assoc_get k l'
  end.

(** [v[key]] for a string key: only a dict accepts it. *)
Definition subscript (v : json) (key : string) : outcome json :=
  match v with
  | JObj fields =>
      match assoc_get key fields with
      | Some x => Ret x
      | None => Raise (KeyError key)
      end
  | _ => Raise TypeError
  end.

Definition chars_of (s : string) : list json :=
  map (fun c => JStr (String c EmptyString)) (list_ascii_of_string s).

(** [for x in v]: a list yields its items, a dict its keys, a string its
    characters; nothing else is iterable. *)
Definition py_iter (v : json) : outcome (list json) :=
  match v with
  | JArr items => Ret items
  | JObj fields => Ret (map (fun kv => JStr (fst kv)) fields)
  | JStr s => Ret (chars_of s)
  | _ => Raise TypeError
  end.

(** ** Dates

    A [datetime.date] is represented by its proleptic Gregorian ordinal
    ([date.toordinal()]): CPython subtracts dates and shifts them by a
    [timedelta] on the ordinals, and the order of dates is the order of their
    ordinals.  Valid ordinals run from 1 (0001-01-01) to [MAXORDINAL]
    (9999-12-31). *)
Definition date : Type := Z.

Definition MAXORDINAL : Z := 3652059.

Definition is_leap (y : Z) : bool :=
  (y mod 4 =? 0) && (negb (y mod 100 =? 0) || (y mod 400 =? 0)).

Definition days_before_year (year : Z) : Z :=
  let y := year - 1 in y * 365 + y / 4 - y / 100 + y / 400.

Definition days_in_month (year month : Z) : Z :=
  if (month =? 2) && is_leap year then 29
  else nth (Z.to_nat month) [0; 31; 28; 31; 30; 31; 30; 31; 31; 30; 31; 30; 31] 0.

Definition days_before_month (year month : Z) : Z :=
  nth (Z.to_nat month) [0; 0; 31; 59; 90; 120; 151; 181; 212; 243; 273; 304; 334] 0
  + (if (2 <? month) && is_leap year then 1 else 0).

Definition ymd2ord (year month day : Z) : date :=
  days_before_year year + days_before_month year month + day.

(** [date - timedelta(days=n)]: out of the range of dates it raises. *)
Definition date_sub_days (d : date) (n : Z) : outcome date :=
  let o := d - n in
  if (0 <? o) && (o <=? MAXORDINAL) then Ret o else Raise OverflowError.

(** [(d1 - d2).days] *)
Definition days_between (d1 d2 : date) : Z := d1 - d2.

(** [d1 > d2] and [d1 < d2] on dates. *)
Definition date_gt (d1 d2 : date) : bool := d2 <? d1.
Definition date_lt (d1 d2 : date) : bool := d1 <? d2.

Definition ord2ymd (ordinal : date) : Z * Z * Z :=
  let n := ordinal - 1 in
  let n400 := n / 146097 in
  let n := n mod 146097 in
  let n100 := n / 36524 in
  let n := n mod 36524 in
  let n4 := n / 1461 in
  let n := n mod 1461 in
  let n1 := n / 365 in
  let n := n mod 365 in
  let year := n400 * 400 + 1 + n100 * 100 + n4 * 4 + n1 in
  if (n1 =? 4) || (n100 =? 4) then (year - 1, 12, 31)
  else
    let leapyear := (n1 =? 3) && (negb (n4 =? 24) || (n100 =? 3)) in
    let month := Z.shiftr (n + 50) 5 in
    let preceding :=
      nth (Z.to_nat month) [0; 0; 31; 59; 90; 120; 151; 181; 212; 243; 273; 304; 334] 0
      + (if (2 <? month) && leapyear then 1 else 0) in
    if n <? preceding then
      let month := month - 1 in
      let preceding :=
        preceding
        - (nth (Z.to_nat month) [0; 31; 28; 31; 30; 31; 30; 31; 31; 30; 31; 30; 31] 0
           + (if (month =? 2) && leapyear then 1 else 0)) in
      (year, month, n - preceding + 1)
    else (year, month, n - preceding + 1).

(** ** Text

    [str(n)] of an integer, padding, and the part of [str.format] the script
    uses: literal text and replacement fields [{}], [{name}], [{:d}], [{:3d}]. *)

Definition str_of_int (n : Z) : string := pretty n.

Fixpoint repeat_char (c : ascii) (n : nat) : string :=
  match n with
  | O => EmptyString
  | S n' => String c (repeat_char c n')
  end.

(** Right-align [s] in a field of [width] characters, filling with [c]. *)
Definition pad_left (c : ascii) (width : nat) (s : string) : string :=
  repeat_char c (width - String.length s) +:+ s.

(** [str(d)] of a date: ISO format, [%04d-%02d-%02d]. *)
Definition isoformat (d : date) : string :=
  let '(y, m, dd) := ord2ymd d in
  pad_left "0" 4 (str_of_int y) +:+ "-" +:+ pad_left "0" 2 (str_of_int m)
  +:+ "-" +:+ pad_left "0" 2 (str_of_int dd).

(** An argument of [str.format], after [str()] of objects that are neither
    strings nor integers. *)
Inductive fmtarg : Type :=
  | FStr (s : string)
  | FInt (n : Z).

Inductive piece : Type :=
  | Lit (s : string)
  | Field (name spec : string).

Inductive scan_state : Type :=
  | InLit (acc : string)
  | InField (acc : string)
  | InSpec (name acc : string).

Definition snoc_char (s : string) (c : ascii) : string :=
  s +:+ String c EmptyString.

(** One pass over the template.  A [}] outside a field, a [{] inside one and
    an unclosed field are [ValueError]s ([{{] and [}}] do not occur in the
    script's templates). *)
Fixpoint scan_template (s : string) (st : scan_state) (out : list piece)
  : outcome (list piece) :=
  match s with
  | EmptyString =>
      match st with
      | InLit acc => Ret (rev (Lit acc :: out))
      | _ => Raise ValueError
      end
  | String c rest =>
      match st with
      | InLit acc =>
          if Ascii.eqb c "{" then scan_template rest (InField EmptyString) (Lit acc :: out)
          else if Ascii.eqb c "}" then Raise ValueError
          else scan_template rest (InLit (snoc_char acc c)) out
      | InField acc =>
          if Ascii.eqb c "}" then scan_template rest (InLit EmptyString) (Field acc EmptyString :: out)
          else if Ascii.eqb c ":" then scan_template rest (InSpec acc EmptyString) out
          else if Ascii.eqb c "{" then Raise ValueError
          else scan_template rest (InField (snoc_char acc c)) out
      | InSpec name acc =>
          if Ascii.eqb c "}" then scan_template rest (InLit EmptyString) (Field name acc :: out)
          else if Ascii.eqb c "{" then Raise ValueError
          else scan_template rest (InSpec name (snoc_char acc c)) out
      end
  end.

Definition is_digit (c : ascii) : bool :=
  let n := nat_of_ascii c in (48 <=? n)%nat && (n <=? 57)%nat.

Fixpoint digits_value (s : string) (acc : nat) : option nat :=
  match s with
  | EmptyString => Some acc
  | String c rest =>
      if is_digit c then digits_value rest (10 * acc + (nat_of_ascii c - 48))%nat
      else None
  end.

(** A format spec of the script: empty, [d], or a width followed by [d]. *)
Definition apply_spec (spec : string) (a : fmtarg) : outcome string :=
  match spec, a with
  | EmptyString, FStr s => Ret s
  | EmptyString, FInt n => Ret (str_of_int n)
  | _, FInt n =>
      match String.length spec with
      | O => Ret (str_of_int n)
      | S k =>
          if String.eqb (String.substring k 1 spec) "d" then
            match digits_value (String.substring 0 k spec) 0 with
            | Some width => Ret (pad_left " " width (str_of_int n))
            | None => Raise ValueError
            end
          else Raise ValueError
      end
  | _, FStr _ => Raise ValueError
  end.

(** Look a replacement field up: an empty name takes the next positional
    argument, a number that position, anything else a keyword.  A keyword
    that was not passed is a [KeyError], a position past the arguments an
    [IndexError]. *)
Definition field_arg (name : string) (auto : nat)
    (args : list fmtarg) (kwargs : list (string * fmtarg)) : outcome (fmtarg * nat) :=
  match name with
  | EmptyString =>
      match nth_error args auto with
      | Some a => Ret (a, S auto)
      | None => Raise IndexError
      end
  | _ =>
      match digits_value name 0 with
      | Some i =>
          match nth_error args i with
          | Some a => Ret (a, auto)
          | None => Raise IndexError
          end
      | None =>
          match assoc_get name kwargs with
          | Some a => Ret (a, auto)
          | None => Raise (KeyError name)
          end
      end
  end.

Fixpoint render_pieces (ps : list piece) (auto : nat)
    (args : list fmtarg) (kwargs : list (string * fmtarg)) : outcome string :=
  match ps with
  | [] => Ret EmptyString
  | Lit s :: ps' =>
      let? r := render_pieces ps' auto args kwargs in Ret (s +:+ r)
  | Field name spec :: ps' =>
      let? af := field_arg name auto args kwargs in
      let? s := apply_spec spec (fst af) in
      let? r := render_pieces ps' (snd af) args kwargs in
      Ret (s +:+ r)
  end.

(** [template.format( *args, **kwargs)] *)
Definition py_format (template : string)
    (args : list fmtarg) (kwargs : list (string * fmtarg)) : outcome string :=
  let? ps := scan_template template (InLit EmptyString) [] in
  render_pieces ps 0%nat args kwargs.

(** ** The world and computations on it *)

Record request : Type := mkRequest {
  req_url : string;
  req_headers : list (string * string)
}.

(** What the script reads of a [requests.Response]: the status, the decoded
    body ([None] when the body is not JSON) and the parsed [Link] header as a
    map from relation to URL. *)
Record response : Type := mkResponse {
  status_code : Z;
  body : option json;
  links : gmap string string
}.

Record world : Type := mkWorld {
  sent : list request;
  stdout : list string;
  stderr : list string;
  User_cache : gmap string json
}.

(** The process at start-up: nothing sent, nothing printed, [User.cache = {}]. *)
Definition initial_world : world :=
  {| sent := []; stdout := []; stderr := []; User_cache := ∅ |}.

(** What the script takes from outside.  [server] answers a request ([None]
    when [requests] raises instead of returning a response), [parse_str] is
    [dateutil.parser.parse] followed by [.date()] ([None] when it rejects the
    string), [today] is [datetime.date.today()], constant during a run, and
    [py_repr] is Python's [str] of a list or dict. *)
Class Runtime : Type := {
  server : request -> option response;
  parse_str : string -> option date;
  today : date;
  py_repr : json -> string
}.

Definition M (A : Type) : Type := world -> outcome A * world.

Definition mret {A : Type} (a : A) : M A := fun w => (Ret a, w).

Definition mbind {A B : Type} (m : M A) (f : A -> M B) : M B :=
  fun w =>
    match m w with
    | (Ret a, w') => f a w'
    | (Abort r, w') => (Abort r, w')
    end.

Notation "'let*' x ':=' m 'in' k" := (mbind m (fun x => k))
  (at level 10, x name, m at level 100, k at level 200).
Notation "m ';;' k" := (mbind m (fun _ => k))
  (at level 100, k at level 200, right associativity).

Definition lift {A : Type} (o : outcome A) : M A := fun w => (o, w).

Definition mraise {A : Type} (e : exn) : M A := lift (Raise e).

Fixpoint mmap {A B : Type} (f : A -> M B) (l : list A) : M (list B) :=
  match l with
  | [] => mret []
  | x :: l' =>
      let* y := f x in
      let* ys := mmap f l' in
      mret (y :: ys)
  end.

(** [print(s)] and [print(s, file=sys.stderr)]: one entry per call. *)
Definition print (s : string) : M unit :=
  fun w => (Ret tt, {| sent := sent w; stdout := (stdout w ++ [s])%list;
                       stderr := stderr w; User_cache := User_cache w |}).

Definition print_stderr (s : string) : M unit :=
  fun w => (Ret tt, {| sent := sent w; stdout := stdout w;
                       stderr := (stderr w ++ [s])%list; User_cache := User_cache w |}).

Definition sys_exit {A : Type} (code : Z) : M A := lift (Abort (SysExit code)).

Definition log_request (r : request) (w : world) : world :=
  {| sent := (sent w ++ [r])%list; stdout := stdout w;
     stderr := stderr w; User_cache := User_cache w |}.

(** [{'Authorization': 'token {}'.format(token)}] *)
Definition auth_headers (token : string) : outcome (list (string * string)) :=
  let? v := py_format "token {}" [FStr token] [] in
  Ret [("Authorization", v)].

Section Script.
Context {R : Runtime}.

(** [requests.get(url, headers=headers)]: the request goes out, then the
    server answers or [requests] raises. *)
Definition requests_get (url : string) (headers : list (string * string)) : M response :=
  fun w =>
    let r := {| req_url := url; req_headers := headers |} in
    match server r with
    | Some resp => (Ret resp, log_request r w)
    | None => (Raise RequestException, log_request r w)
    end.

(** [resp.json()] *)
Definition resp_json (resp : response) : outcome json :=
  match body resp with
  | Some j => Ret j
  | None => Raise ValueError
  end.

(** *** class User *)

Record User : Type := mkUser { info : json }.

(** [User.__init__].  The membership test needs a hashable key; a key that is
    not a string is never in the cache and is no URL for [requests].  The
    cache is read here and written nowhere in the script. *)
Definition User_init (userurl : json) (token : string) : M User :=
  let* headers := lift (auth_headers token) in
  match userurl with
  | JArr _ | JObj _ => mraise TypeError
  | JStr u =>
      fun w =>
        match User_cache w !! u with
        | Some cached => (Ret {| info := cached |}, w)
        | None =>
            (let* resp := requests_get u headers in
             let* j := lift (resp_json resp) in
             mret {| info := j |}) w
        end
  | _ => mraise RequestException
  end.

(** The value a [__str__] returns must be a string. *)
Definition as_str (v : json) : outcome string :=
  match v with
  | JStr s => Ret s
  | _ => Raise TypeError
  end.

(** [User.__str__]: whatever is raised inside the [try] gives ["None"]. *)
Definition User_str (u : User) : outcome string :=
  match subscript (info u) "name" with
  | Abort _ => Ret "None"
  | Ret name =>
      if truthy name then as_str name
      else match subscript (info u) "login" with
           | Abort _ => Ret "None"
           | Ret login => as_str login
           end
  end.

(** *** class ScyllaPR *)

Record ScyllaPR : Type := mkScyllaPR {
  token : string;
  created_at : date;
  url : json;
  closed_at : option date;
  merged_at : option date;
  title : json;
  user : User;
  reviewers : list User
}.

(** [parse(v).date()]: dateutil raises [TypeError] for what is not a string
    and a [ValueError] for a string it cannot read. *)
Definition parse (v : json) : outcome date :=
  match v with
  | JStr s =>
      match parse_str s with
      | Some d => Ret d
      | None => Raise ValueError
      end
  | _ => Raise TypeError
  end.

(** [try: x = e  except TypeError: x = None] *)
Definition none_on_TypeError {A : Type} (o : outcome A) : outcome (option A) :=
  match o with
  | Ret a => Ret (Some a)
  | Abort (Exn TypeError) => Ret None
  | Abort r => Abort r
  end.

Definition ScyllaPR_init (j : json) (tok : string) : M ScyllaPR :=
  let* created := lift (let? v := subscript j "created_at" in parse v) in
  let* html_url := lift (subscript j "html_url") in
  let* closed := lift (none_on_TypeError (let? v := subscript j "closed_at" in parse v)) in
  let* merged := lift (none_on_TypeError (let? v := subscript j "merged_at" in parse v)) in
  let* ttl := lift (subscript j "title") in
  let* uurl := lift (let? u := subscript j "user" in subscript u "url") in
  let* usr := User_init uurl tok in
  let* rs := lift (let? r := subscript j "requested_reviewers" in py_iter r) in
  let* revs := mmap (fun x => let* xu := lift (subscript x "url") in User_init xu tok) rs in
  mret {| token := tok; created_at := created; url := html_url;
          closed_at := closed; merged_at := merged; title := ttl;
          user := usr; reviewers := revs |}.

(** What a predicate of [ScyllaPR] returns: [isAbandoned] and [isMerged] hand
    back the operand of [and] that decided, not a [bool]. *)
Inductive pyval : Type :=
  | PNone
  | PBool (b : bool)
  | PDate (d : date).

(** Truthiness: [None] is false, a date is always true. *)
Definition truth (v : pyval) : bool :=
  match v with
  | PNone => false
  | PBool b => b
  | PDate _ => true
  end.

Definition opt_date (o : option date) : pyval :=
  match o with
  | Some d => PDate d
  | None => PNone
  end.

Definition timeToClose (p : ScyllaPR) : outcome Z :=
  match closed_at p with
  | Some c => Ret (days_between c (created_at p))
  | None => Raise TypeError
  end.

Definition openFor (p : ScyllaPR) : Z :=
  days_between today (created_at p).

Definition isOpen (p : ScyllaPR) : bool :=
  negb (truth (opt_date (closed_at p))).

Definition isAbandoned (p : ScyllaPR) : pyval :=
  if truth (opt_date (closed_at p))
  then PBool (negb (truth (opt_date (merged_at p))))
  else opt_date (closed_at p).

Definition isMerged (p : ScyllaPR) : pyval :=
  opt_date (merged_at p).

Definition needsAttention (p : ScyllaPR) (days : Z) : outcome bool :=
  if isOpen p then
    let? limit := date_sub_days today days in
    Ret (date_gt limit (created_at p))
  else Ret false.

(** [str(v)] of a decoded JSON value put into a [{}] field. *)
Definition str_of_json (v : json) : string :=
  match v with
  | JStr s => s
  | JNull => "None"
  | JBool true => "True"
  | JBool false => "False"
  | JNum n => str_of_int n
  | _ => py_repr v
  end.

(** [ScyllaPR.__str__] *)
Definition ScyllaPR_str (p : ScyllaPR) : outcome string :=
  let s := EmptyString in
  let? author := User_str (user p) in
  let? l1 := py_format (TAB +:+ "Author      : {}" +:+ NL) [FStr author] [] in
  let s := s +:+ l1 in
  let? l2 := py_format (TAB +:+ "Title       : {}" +:+ NL) [FStr (str_of_json (title p))] [] in
  let s := s +:+ l2 in
  let? l3 := py_format (TAB +:+ "URL         : {}" +:+ NL) [FStr (str_of_json (url p))] [] in
  let s := s +:+ l3 in
  if isOpen p then
    let? l4 := py_format (TAB +:+ "Created  at : {} ({} days ago)" +:+ NL)
                 [FStr (isoformat (created_at p)); FInt (openFor p)] [] in
    Ret (s +:+ l4)
  else
    let? ttc := timeToClose p in
    let? closed := match closed_at p with
                   | Some c => Ret (isoformat c)
                   | None => Ret "None"
                   end in
    let? l4 := py_format (TAB +:+ "Created  at : {} and Closed at {} ({} after days)" +:+ NL)
                 [FStr (isoformat (created_at p)); FStr closed; FInt ttc] [] in
    Ret (s +:+ l4).

(** *** Fetching *)

Definition read_all (dummy : json) : outcome bool := Ret true.

(** [[ ScyllaPR(x, token) for x in json if add_criteria(x) ]] *)
Fixpoint build_records (items : list json) (tok : string)
    (add_criteria : json -> outcome bool) : M (list ScyllaPR) :=
  match items with
  | [] => mret []
  | x :: rest =>
      let* keep := lift (add_criteria x) in
      if keep then
        let* p := ScyllaPR_init x tok in
        let* ps := build_records rest tok add_criteria in
        mret (p :: ps)
      else build_records rest tok add_criteria
  end.

(** The [while True] loop of [getGithubData]; [fuel] bounds the number of
    pages fetched and [ret] is the list accumulated so far. *)
Fixpoint fetch_pages (fuel : nat) (url : string) (headers : list (string * string))
    (tok : string) (add_criteria : json -> outcome bool) (ret : list ScyllaPR)
  : M (list ScyllaPR) :=
  match fuel with
  | O => lift (Abort OutOfFuel)
  | S fuel' =>
      let* resp := requests_get url headers in
      if negb (status_code resp =? 200) then
        print_stderr "Can't contact github API" ;;
        sys_exit (-1)
      else
        let* j := lift (resp_json resp) in
        let* items := lift (py_iter j) in
        let* new := build_records items tok add_criteria in
        let ret := (ret ++ new)%list in
        match links resp !! "next" with
        | Some next_url => fetch_pages fuel' next_url headers tok add_criteria ret
        | None => mret ret
        end
  end.

Definition getGithubData (fuel : nat) (url : string) (tok : string)
    (add_criteria : json -> outcome bool) : M (list ScyllaPR) :=
  let ret := [] in
  let* headers := lift (auth_headers tok) in
  fetch_pages fuel url headers tok add_criteria ret.

(** *** Reporting *)

(** The dict [bins] of [printHistogram]: thresholds in days, all counts 0. *)
Definition initial_bins : gmap Z Z :=
  list_to_map [(0, 0); (1, 0); (2, 0); (3, 0); (4, 0); (5, 0); (6, 0); (7, 0);
               (15, 0); (21, 0); (30, 0); (60, 0); (120, 0)].

(** [sorted(bins.keys())] *)
Definition sorted_keys_of (bins : gmap Z Z) : list Z :=
  merge_sort Z.le (map fst (map_to_list bins)).

(** [bins[k]] *)
Definition bins_get (bins : gmap Z Z) (k : Z) : outcome Z :=
  match bins !! k with
  | Some c => Ret c
  | None => Raise (KeyError (str_of_int k))
  end.

(** The inner [for k in sorted_keys] with its [break]: the first threshold
    that [x] does not exceed is incremented; past the last one nothing is. *)
Fixpoint count_into (x : Z) (sorted_keys : list Z) (bins : gmap Z Z)
  : outcome (gmap Z Z) :=
  match sorted_keys with
  | [] => Ret bins
  | k :: ks =>
      if x <=? k then
        let? c := bins_get bins k in
        Ret (<[k := c + 1]> bins)
      else count_into x ks bins
  end.

(** The outer [for x in data]. *)
Fixpoint fill_bins (data : list Z) (sorted_keys : list Z) (bins : gmap Z Z)
  : outcome (gmap Z Z) :=
  match data with
  | [] => Ret bins
  | x :: rest =>
      let? bins' := count_into x sorted_keys bins in
      fill_bins rest sorted_keys bins'
  end.

Definition py_sum (data : list Z) : Z := fold_left Z.add data 0.

(** [int(sum(data) / len(data))].  The true division raises on an empty
    list; otherwise [int] truncates the quotient toward zero (the double that
    CPython computes truncates to the same integer as long as the sum stays
    below 2^53 in magnitude). *)
Definition average (data : list Z) : outcome Z :=
  match data with
  | [] => Raise ZeroDivisionError
  | _ => Ret (Z.quot (py_sum data) (Z.of_nat (length data)))
  end.

(** [int(max(data))] *)
Definition py_max (data : list Z) : outcome Z :=
  match data with
  | [] => Raise ValueError
  | x :: rest => Ret (fold_left Z.max rest x)
  end.

(** [while bins[sorted_keys[-1]] == 0: sorted_keys.pop()].  Indexing the
    emptied list raises [IndexError]. *)
Equations trim_keys (bins : gmap Z Z) (sorted_keys : list Z) : outcome (list Z)
  by wf (length sorted_keys) lt :=
  trim_keys bins sorted_keys with inspect (last sorted_keys) := {
    | exist _ None _ => Raise IndexError
    | exist _ (Some k) Hlast with bins_get bins k := {
        | Abort r => Abort r
        | Ret c with Z.eqb c 0 := {
            | true => trim_keys bins (removelast sorted_keys)
            | false => Ret sorted_keys } } }.
Next Obligation.
  clear trim_keys. destruct sorted_keys as [|a l]; [discriminate|]. clear Hlast.
  revert a. induction l as [|b l IH]; intros a; simpl in *; [lia|].
  specialize (IH b). lia.
Qed.

(** The final [for k in sorted_keys: print(...)]. *)
Fixpoint print_bins (sorted_keys : list Z) (bins : gmap Z Z) : M unit :=
  match sorted_keys with
  | [] => mret tt
  | k :: ks =>
      let* c := lift (bins_get bins k) in
      let* line := lift (py_format (TAB +:+ TAB +:+ "{:3d}: {}")
                           [FInt k; FStr (repeat_char "@" (Z.to_nat c))] []) in
      print line ;;
      print_bins ks bins
  end.

Definition printHistogram (closedPR : list ScyllaPR) (action : string) : M unit :=
  let bins := initial_bins in
  let sorted_keys := sorted_keys_of bins in
  let* data := lift (omap timeToClose closedPR) in
  let* bins := lift (fill_bins data sorted_keys bins) in
  let* avg := lift (average data) in
  let* l1 := lift (py_format (TAB +:+ "Average time to {}: {:d} days") [FStr action; FInt avg] []) in
  print l1 ;;
  let* peak := lift (py_max data) in
  let* l2 := lift (py_format (TAB +:+ "Peak time to {}: {:d} days") [FStr action; FInt peak] []) in
  print l2 ;;
  let* l3 := lift (py_format (TAB +:+ "Histogram of {} time: in days") [FStr action] []) in
  print l3 ;;
  let* sorted_keys := lift (trim_keys bins sorted_keys) in
  print_bins sorted_keys bins.

(** [openPR.sort(key=lambda x: x.openFor(), reverse=True)]: descending by
    key, and stable (equal keys keep their order). *)
Fixpoint insert_desc (x : ScyllaPR) (l : list ScyllaPR) : list ScyllaPR :=
  match l with
  | [] => [x]
  | y :: ys =>
      if openFor x <? openFor y then y :: insert_desc x ys
      else x :: y :: ys
  end.

Definition sort_by_openFor_desc (l : list ScyllaPR) : list ScyllaPR :=
  foldr insert_desc [] l.

(** [[ str(x) for x in openPR if x.needsAttention(attDay) ]] *)
Fixpoint attention_texts (openPR : list ScyllaPR) (attDay : Z) : outcome (list string) :=
  match openPR with
  | [] => Ret []
  | x :: rest =>
      let? need := needsAttention x attDay in
      if need then
        let? s := ScyllaPR_str x in
        let? ss := attention_texts rest attDay in
        Ret (s :: ss)
      else attention_texts rest attDay
  end.

Fixpoint print_all (l : list string) : M unit :=
  match l with
  | [] => mret tt
  | x :: rest => print x ;; print_all rest
  end.

(** Truthiness of [days] ([None] or an int) and of a bucket ([None] or a list). *)
Definition days_truthy (days : option Z) : bool :=
  match days with
  | Some d => negb (d =? 0)
  | None => false
  end.

Definition bucket_truthy (b : option (list ScyllaPR)) : bool :=
  match b with
  | Some (_ :: _) => true
  | _ => false
  end.

Definition bucket_list (b : option (list ScyllaPR)) : list ScyllaPR :=
  match b with
  | Some l => l
  | None => []
  end.

Definition len {A : Type} (l : list A) : Z := Z.of_nat (length l).

Definition printStats (days : option Z) (openPR : list ScyllaPR)
    (abandonedPR mergedPR : option (list ScyllaPR)) : M unit :=
  let* period :=
    if days_truthy days then
      lift (py_format "for the past {days} days"
              (match days with Some d => [FInt d] | None => [] end) [])
    else mret "For the entire life of the repository" in
  (if bucket_truthy mergedPR then
     let* l := lift (py_format ("Merged Pull Requests {period}: {m}" +:+ NL) []
                       [("period", FStr period); ("m", FInt (len (bucket_list mergedPR)))]) in
     print l ;;
     printHistogram (bucket_list mergedPR) "merge"
   else mret tt) ;;
  (if bucket_truthy abandonedPR then
     let* l := lift (py_format (NL +:+ "Abandoned Pull Requests {period}: {m}" +:+ NL) []
                       [("period", FStr period); ("m", FInt (len (bucket_list abandonedPR)))]) in
     print l ;;
     printHistogram (bucket_list abandonedPR) "abandon"
   else mret tt) ;;
  let* l := lift (py_format (NL +:+ "Currently Open Pull Requests: {m}" +:+ NL) []
                    [("m", FInt (len openPR))]) in
  print l ;;
  let attDay := 15 in
  let openPR := sort_by_openFor_desc openPR in
  let* needsAttention := lift (attention_texts openPR attDay) in
  if 0 <? len needsAttention then
    let* h := lift (py_format "Pull Requests needing attention: (open for more than {} days):"
                      [FInt attDay] []) in
    print h ;;
    print_all needsAttention
  else mret tt.

(** *** The script *)

Record Args : Type := mkArgs {
  repo : string;
  period : option Z;
  arg_token : string;
  open_only : bool
}.

Definition open_pr_url : string :=
  "https://api.github.com/repos/scylladb/{}/pulls?state=open?sort=created_at?direction=desc".
Definition closed_pr_url : string :=
  "https://api.github.com/repos/scylladb/{}/pulls?state=closed?sort=closed_at?direction=desc".

Definition shouldIncludePR (args : Args) (data : json) : outcome bool :=
  let days := period args in
  if negb (days_truthy days) then Ret true
  else
    let? limit := date_sub_days today (match days with Some d => d | None => 0 end) in
    let? closed := (let? v := subscript data "closed_at" in parse v) in
    Ret (date_lt limit closed).

(** The loop over [closedPR]: an open record is an error, the others go to
    [abandonedPR] or [mergedPR]. *)
Fixpoint classify (closedPR abandonedPR mergedPR : list ScyllaPR)
  : outcome (list ScyllaPR * list ScyllaPR) :=
  match closedPR with
  | [] => Ret (abandonedPR, mergedPR)
  | x :: rest =>
      if isOpen x then Raise (Exception "Not expecting an open PR")
      else if truth (isAbandoned x) then classify rest (abandonedPR ++ [x])%list mergedPR
      else if truth (isMerged x) then classify rest abandonedPR (mergedPR ++ [x])%list
      else classify rest abandonedPR mergedPR
  end.

Definition main (fuel : nat) (args : Args) : M unit :=
  let* open_url := lift (py_format open_pr_url [FStr (repo args)] []) in
  let* openPR := getGithubData fuel open_url (arg_token args) read_all in
  let abandonedPR := [] in
  let mergedPR := [] in
  let* buckets :=
    if negb (open_only args) then
      let* closed_url := lift (py_format closed_pr_url [FStr (repo args)] []) in
      let* closedPR := getGithubData fuel closed_url (arg_token args) (shouldIncludePR args) in
      lift (classify closedPR abandonedPR mergedPR)
    else mret (abandonedPR, mergedPR) in
  printStats (period args) openPR (Some (fst buckets)) (Some (snd buckets)).

End Script.

(** ** A concrete runtime

    A small ISO-8601 reader standing for dateutil on GitHub's timestamps
    ([2024-01-04T10:00:00Z]), and servers given as tables from URL to
    response, used to run the script on explicit inputs. *)

Definition iso_parse (s : string) : option date :=
  match digits_value (String.substring 0 4 s) 0,
        digits_value (String.substring 5 2 s) 0,
        digits_value (String.substring 8 2 s) 0 with
  | Some y, Some m, Some d =>
      let y := Z.of_nat y in
      let m := Z.of_nat m in
      let d := Z.of_nat d in
      if String.eqb (String.substring 4 1 s) "-" && String.eqb (String.substring 7 1 s) "-"
         && (10 <=? Z.of_nat (String.length s))
         && (1 <=? y) && (y <=? 9999) && (1 <=? m) && (m <=? 12)
         && (1 <=? d) && (d <=? days_in_month y m)
      then Some (ymd2ord y m d) else None
  | _, _, _ => None
  end.

Definition table_server (table : list (string * response)) (r : request) : option response :=
  assoc_get (req_url r) table.

Definition ok_page (items : list json) (next : option string) : response :=
  {| status_code := 200;
     body := Some (JArr items);
     links := match next with
              | Some u => {[ "next" := u ]}
              | None => ∅
              end |}.

Definition ok_doc (j : json) : response :=
  {| status_code := 200; body := Some j; links := ∅ |}.

Definition alice_url : string := "https://api.github.com/users/alice".

Definition alice : json := JObj [("login", JStr "alice"); ("name", JStr "Alice")].

Definition pr_json (number : Z) (created : string) (closed merged : json) : json :=
  JObj [("number", JNum number);
        ("html_url", JStr ("https://github.com/scylladb/scylla/pull/" +:+ str_of_int number));
        ("title", JStr ("Change " +:+ str_of_int number));
        ("created_at", JStr created);
        ("closed_at", closed);
        ("merged_at", merged);
        ("user", JObj [("url", JStr alice_url)]);
        ("requested_reviewers", JArr [])].

(** The end-to-end scenario: no open pull request, one merged pull request
    created on 2024-01-01 and closed on 2024-01-04. *)
Definition scenario_pr : json :=
  pr_json 1 "2024-01-01T09:00:00Z" (JStr "2024-01-04T17:30:00Z") (JStr "2024-01-04T17:30:00Z").

Definition scenario_server : request -> option response :=
  table_server
    [("https://api.github.com/repos/scylladb/scylla/pulls?state=open?sort=created_at?direction=desc",
      ok_page [] None);
     ("https://api.github.com/repos/scylladb/scylla/pulls?state=closed?sort=closed_at?direction=desc",
      ok_page [scenario_pr] None);
     (alice_url, ok_doc alice)].

Definition scenario_runtime : Runtime :=
  {| server := scenario_server;
     parse_str := iso_parse;
     today := ymd2ord 2024 3 1;
     py_repr := fun _ => "[...]" |}.

Definition scenario_args : Args :=
  {| repo := "scylla"; period := None; arg_token := "secret"; open_only := false |}.

(** A record that carries a merge date and no closing date, as [ScyllaPR]
    builds it from an object whose [closed_at] is null. *)
Definition merged_unclosed_json : json :=
  pr_json 7 "2024-01-01T09:00:00Z" JNull (JStr "2024-01-04T17:30:00Z").

Definition merged_unclosed : ScyllaPR :=
  {| token := "secret";
     created_at := ymd2ord 2024 1 1;
     url := JStr "https://github.com/scylladb/scylla/pull/7";
     closed_at := None;
     merged_at := Some (ymd2ord 2024 1 4);
     title := JStr "Change 7";
     user := {| info := alice |};
     reviewers := [] |}.

(** Three closed records with close times 0, 1 and 1. *)
Definition closed_pr (created closed : date) : ScyllaPR :=
  {| token := "secret"; created_at := created;
     url := JStr "https://github.com/scylladb/scylla/pull/1";
     closed_at := Some closed; merged_at := Some closed;
     title := JStr "Change"; user := {| info := alice |}; reviewers := [] |}.

Definition quick_prs : list ScyllaPR :=
  [ closed_pr (ymd2ord 2024 1 1) (ymd2ord 2024 1 1);
    closed_pr (ymd2ord 2024 1 1) (ymd2ord 2024 1 2);
    closed_pr (ymd2ord 2024 1 3) (ymd2ord 2024 1 4) ].

(** One record closed 200 days after its creation. *)
Definition slow_prs : list ScyllaPR :=
  [ closed_pr (ymd2ord 2023 1 1) (ymd2ord 2023 7 20) ].

Definition page1_url : string := "https://api.github.com/repos/scylladb/scylla/pulls?state=closed".
Definition page2_url : string := "https://api.github.com/repositories/1/pulls?state=closed&page=2".
Definition page3_url : string := "https://api.github.com/repositories/1/pulls?state=closed&page=3".

Definition merged_json (number : Z) : json :=
  pr_json number "2024-01-01T09:00:00Z" (JStr "2024-01-04T17:30:00Z") (JStr "2024-01-04T17:30:00Z").

(** An object that [ScyllaPR] cannot be built from: it has no dates. *)
Definition bare_json (number : Z) : json := JObj [("number", JNum number)].

Definition merged_record (number : Z) : ScyllaPR :=
  {| token := "secret";
     created_at := ymd2ord 2024 1 1;
     url := JStr ("https://github.com/scylladb/scylla/pull/" +:+ str_of_int number);
     closed_at := Some (ymd2ord 2024 1 4);
     merged_at := Some (ymd2ord 2024 1 4);
     title := JStr ("Change " +:+ str_of_int number);
     user := {| info := alice |};
     reviewers := [] |}.

(** Three pages of 2, 2 and 1 pull requests. *)
Definition paged_runtime : Runtime :=
  {| server := table_server
       [(page1_url, ok_page [merged_json 1; merged_json 2] (Some page2_url));
        (page2_url, ok_page [merged_json 3; merged_json 4] (Some page3_url));
        (page3_url, ok_page [merged_json 5] None);
        (alice_url, ok_doc alice)];
     parse_str := iso_parse;
     today := ymd2ord 2024 3 1;
     py_repr := fun _ => "[...]" |}.

(** The same chain with a second page of objects without dates. *)
Definition raw_runtime : Runtime :=
  {| server := table_server
       [(page1_url, ok_page [merged_json 1; merged_json 2] (Some page2_url));
        (page2_url, ok_page [bare_json 3; bare_json 4] (Some page3_url));
        (page3_url, ok_page [merged_json 5] None);
        (alice_url, ok_doc alice)];
     parse_str := iso_parse;
     today := ymd2ord 2024 3 1;
     py_repr := fun _ => "[...]" |}.

(** A predicate on the raw object that rejects the items of the second page. *)
Definition reject_page_2 (x : json) : outcome bool :=
  let? n := subscript x "number" in
  match n with
  | JNum k => Ret (negb ((k =? 3) || (k =? 4)))
  | _ => Ret true
  end.

(** A first page followed by a page that answers 502. *)
Definition failing_runtime : Runtime :=
  {| server := table_server
       [(page1_url, ok_page [merged_json 1; merged_json 2] (Some page2_url));
        (page2_url, {| status_code := 502; body := None; links := ∅ |});
        (alice_url, ok_doc alice)];
     parse_str := iso_parse;
     today := ymd2ord 2024 3 1;
     py_repr := fun _ => "[...]" |}.

(** A pull request with two requested reviewers that are the same user. *)
Definition reviewed_json : json :=
  JObj [("html_url", JStr "https://github.com/scylladb/scylla/pull/9");
        ("title", JStr "Change 9");
        ("created_at", JStr "2024-01-01T09:00:00Z");
        ("closed_at", JNull);
        ("merged_at", JNull);
        ("user", JObj [("url", JStr alice_url)]);
        ("requested_reviewers",
         JArr [JObj [("url", JStr alice_url)]; JObj [("url", JStr alice_url)]])].

(** * Vocabulary of the statements *)

Definition headers_of (tok : string) : list (string * string) :=
  [("Authorization", "token " +:+ tok)].

(** The three implications of the classification, for one record. *)
Definition status_exclusive (p : ScyllaPR) : Prop :=
  (truth (isMerged p) = true -> truth (isAbandoned p) = false)
  /\ (truth (isMerged p) = true -> isOpen p = false)
  /\ (truth (isAbandoned p) = true -> isOpen p = false).

(** The invariant of the data model: a merge date comes with a closing date. *)
Definition merge_implies_closed (p : ScyllaPR) : Prop :=
  is_Some (merged_at p) -> is_Some (closed_at p).

Definition with_stdout (w : world) (lines : list string) : world :=
  {| sent := sent w; stdout := (stdout w ++ lines)%list;
     stderr := stderr w; User_cache := User_cache w |}.

(** A printed histogram line: the threshold right-aligned on three columns,
    then one [@] per record. *)
Definition bin_line (k : Z) (count : nat) : string :=
  TAB +:+ TAB +:+ pad_left " " 3 (str_of_int k) +:+ ": " +:+ repeat_char "@" count.

Definition average_line (action : string) (n : Z) : string :=
  TAB +:+ "Average time to " +:+ action +:+ ": " +:+ str_of_int n +:+ " days".
Definition peak_line (action : string) (n : Z) : string :=
  TAB +:+ "Peak time to " +:+ action +:+ ": " +:+ str_of_int n +:+ " days".
Definition histogram_line (action : string) : string :=
  TAB +:+ "Histogram of " +:+ action +:+ " time: in days".

(** An outcome other than [ZeroDivisionError]. *)
Definition no_zde {A : Type} (o : outcome A) : Prop :=
  o <> Raise ZeroDivisionError.

(** A computation that never ends in [ZeroDivisionError]. *)
Definition m_no_zde {A : Type} (m : M A) : Prop :=
  forall w, no_zde (fst (m w)).

(** The bins as [printHistogram] has them after its counting loops. *)
Definition bins_of (closedPR : list ScyllaPR) : outcome (gmap Z Z) :=
  let? data := omap timeToClose closedPR in
  fill_bins data (sorted_keys_of initial_bins) initial_bins.

(** The claim of the end-to-end scenario, on the lines of a report: a merged
    count of 1, one mark in bin 4, and no mark in an earlier bin. *)
Definition report_shows_bin_4 (report : list string) : Prop :=
  (exists period, In ("Merged Pull Requests " +:+ period +:+ ": 1" +:+ NL) report)
  /\ In (bin_line 4 1) report
  /\ (forall k c, 0 <= k < 4 -> In (bin_line k c) report -> c = 0%nat).

(** A world with the given cache and nothing sent or printed. *)
Definition blank (c : gmap string json) : world :=
  {| sent := []; stdout := []; stderr := []; User_cache := c |}.

(** A computation of the fetching side: its result depends on the world
    through [User.cache] only, and it leaves the cache and both output
    streams as they were (it only sends requests). *)
Definition fetch_only {A : Type} (m : M A) : Prop :=
  forall w1 w2, User_cache w1 = User_cache w2 ->
    fst (m w1) = fst (m w2)
    /\ User_cache (snd (m w1)) = User_cache w1
    /\ stdout (snd (m w1)) = stdout w1
    /\ stderr (snd (m w1)) = stderr w1.

(** [add_criteria(x)] taken as a truth value. *)
Definition accepts (add_criteria : json -> outcome bool) (x : json) : bool :=
  match add_criteria x with
  | Ret true => true
  | _ => false
  end.

Definition api_error_line : string := "Can't contact github API".

Section Chain.
Context {R : Runtime}.

(** The record [ScyllaPR(x, token)] builds when [User.cache] is [c]. *)
Definition record_of (c : gmap string json) (x : json) (tok : string) : outcome ScyllaPR :=
  fst (ScyllaPR_init x tok (blank c)).

(** A successful page: status 200 and a body that iterates to [items]. *)
Definition serves_page (hd : list (string * string)) (u : string)
    (resp : response) (items : list json) : Prop :=
  server {| req_url := u; req_headers := hd |} = Some resp
  /\ status_code resp = 200
  /\ exists j, body resp = Some j /\ py_iter j = Ret items.

(** [walk hd u pages stop]: starting at [u] the server hands out [pages] one
    after the other, each linked to the next.  With [stop = None] the last
    page carries no [next] link; with [stop = Some bad] the link after the
    last page leads to [bad], which answers with a status other than 200. *)
Inductive walk (hd : list (string * string)) :
    string -> list (list json) -> option string -> Prop :=
  | walk_last (u : string) (resp : response) (items : list json) :
      serves_page hd u resp items ->
      links resp !! "next" = None ->
      walk hd u [items] None
  | walk_next (u : string) (resp : response) (items : list json) (next_url : string)
      (pages : list (list json)) (stop : option string) :
      serves_page hd u resp items ->
      links resp !! "next" = Some next_url ->
      walk hd next_url pages stop ->
      walk hd u (items :: pages) stop
  | walk_fail (u : string) (resp : response) :
      server {| req_url := u; req_headers := hd |} = Some resp ->
      status_code resp <> 200 ->
      walk hd u [] (Some u).

End Chain.

(** The thresholds of the histogram, in the order of [sorted(bins.keys())]. *)
Definition thresholds : list Z := [0; 1; 2; 3; 4; 5; 6; 7; 15; 21; 30; 60; 120].

(** The number of records counted in the bins of [keys]. *)
Definition bins_total (keys : list Z) (bins : gmap Z Z) : Z :=
  foldr Z.add 0 (map (fun k => default 0 (bins !! k)) keys).

(** The histogram lines printed for [keys]. *)
Definition bin_lines (keys : list Z) (bins : gmap Z Z) : list string :=
  map (fun k => bin_line k (Z.to_nat (default 0 (bins !! k)))) keys.

Section Texts.
Context {R : Runtime}.

(** The first three lines of the text of a record, for an author's name. *)
Definition header_text (author : string) (p : ScyllaPR) : string :=
  ((TAB +:+ "Author      : " +:+ author +:+ NL)
   +:+ (TAB +:+ "Title       : " +:+ str_of_json (title p) +:+ NL))
  +:+ (TAB +:+ "URL         : " +:+ str_of_json (url p) +:+ NL).

(** Its last line: the age of an open record, the two dates and the close
    time of a closed one. *)
Definition dates_text (p : ScyllaPR) : string :=
  match closed_at p with
  | None =>
      TAB +:+ "Created  at : " +:+ isoformat (created_at p)
      +:+ " (" +:+ str_of_int (openFor p) +:+ " days ago)" +:+ NL
  | Some c =>
      TAB +:+ "Created  at : " +:+ isoformat (created_at p)
      +:+ " and Closed at " +:+ isoformat c
      +:+ " (" +:+ str_of_int (days_between c (created_at p)) +:+ " after days)" +:+ NL
  end.

End Texts.

(** The request for a user profile. *)
Definition profile_request (tok : string) (u : string) : request :=
  {| req_url := u; req_headers := [("Authorization", "token " +:+ tok)] |}.

(** A computation that leaves [User.cache] as it finds it. *)
Definition keeps_cache {A : Type} (m : M A) : Prop :=
  forall w, User_cache (snd (m w)) = User_cache w.

(** The line with the number of open pull requests, and the header of the
    attention list. *)
Definition open_count_line (n : Z) : string :=
  NL +:+ "Currently Open Pull Requests: " +:+ str_of_int n +:+ NL.

Definition attention_header : string :=
  "Pull Requests needing attention: (open for more than 15 days):".

(** An open pull request created on the given date. *)
Definition open_pr (created : date) : ScyllaPR :=
  {| token := "secret"; created_at := created;
     url := JStr "https://github.com/scylladb/scylla/pull/2";
     closed_at := None; merged_at := None;
     title := JStr "Pending"; user := {| info := alice |}; reviewers := [] |}.

(** * Properties *)

(** ** Text and headers *)

(** The formatter and the calendar on values of the script. *)
Example format_token : py_format "token {}" [FStr "abc"] [] = Ret "token abc".
Proof. vm_compute. reflexivity. Qed.

Example format_bin_7 :
  py_format (TAB +:+ TAB +:+ "{:3d}: {}") [FInt 7; FStr "@@"] []
  = Ret (TAB +:+ TAB +:+ "  7: @@").
Proof. vm_compute. reflexivity. Qed.

Example format_keywords :
  py_format "{period}: {m}" [] [("period", FStr "p"); ("m", FInt (-12))] = Ret "p: -12".
Proof. vm_compute. reflexivity. Qed.

Example format_missing_keyword :
  py_format "for the past {days} days" [FInt 7] [] = Raise (KeyError "days").
Proof. vm_compute. reflexivity. Qed.

Example ordinals :
  ymd2ord 1 1 1 = 1 /\ ymd2ord 2024 1 1 = 738886 /\ ymd2ord 9999 12 31 = MAXORDINAL.
Proof. vm_compute. auto. Qed.

Example isoformat_dates :
  isoformat (ymd2ord 2024 1 4) = "2024-01-04"
  /\ isoformat (ymd2ord 2023 12 31) = "2023-12-31"
  /\ isoformat (ymd2ord 2024 2 29) = "2024-02-29"
  /\ isoformat 1 = "0001-01-01"
  /\ isoformat MAXORDINAL = "9999-12-31".
Proof. vm_compute. auto 10. Qed.

Example iso_parse_timestamp :
  iso_parse "2024-01-04T17:30:00Z" = Some (ymd2ord 2024 1 4)
  /\ iso_parse "yesterday" = None.
Proof. vm_compute. auto. Qed.

Ltac eval_scan :=
  repeat match goal with
  | |- context [scan_template ?t ?st ?out] =>
      let r := eval vm_compute in (scan_template t st out) in
      change (scan_template t st out) with r
  end.

Lemma append_empty_r (s : string) : s +:+ EmptyString = s.
Proof.
  induction s as [|c s IH]; [reflexivity|].
  change (String c (s +:+ EmptyString) = String c s). by f_equal.
Qed.

Lemma auth_headers_eq (tok : string) : auth_headers tok = Ret (headers_of tok).
Proof.
  unfold auth_headers, headers_of, py_format. eval_scan. cbn.
  by rewrite !append_empty_r.
Qed.

(** ** Status predicates *)

Section Predicates.
Context {R : Runtime}.

(** C4, as amended: for every record, [isMerged] excludes [isAbandoned] and
    [isAbandoned] excludes [isOpen]; [isMerged] excludes [isOpen] on the
    records whose merge date comes with a closing date ([isMerged] looks at
    the merge date alone). *)
Theorem status_predicates_exclusive (p : ScyllaPR) :
  (truth (isMerged p) = true -> truth (isAbandoned p) = false)
  /\ (truth (isAbandoned p) = true -> isOpen p = false)
  /\ (merge_implies_closed p -> truth (isMerged p) = true -> isOpen p = false).
Proof.
  unfold isMerged, isAbandoned, isOpen, merge_implies_closed.
  destruct (closed_at p) as [c|], (merged_at p) as [m|]; simpl;
    repeat split; try done.
  intros H _. destruct H as [? ?]; [by eexists | discriminate].
Qed.

(** C5: [needsAttention(p, days)] is true exactly when [p] is open and the
    date [today - days] is strictly after the creation date; when
    [today - days] is the creation date it is false. *)
Theorem needsAttention_iff (p : ScyllaPR) (days : Z) :
  (needsAttention p days = Ret true
   <-> isOpen p = true
       /\ exists limit, date_sub_days today days = Ret limit /\ created_at p < limit)
  /\ (date_sub_days today days = Ret (created_at p) -> needsAttention p days = Ret false).
Proof.
  unfold needsAttention, date_gt. split.
  - destruct (isOpen p); [|split; [discriminate | intros [? _]; discriminate]].
    destruct (date_sub_days today days) as [limit|r]; simpl.
    + split.
      * intros H. split; [reflexivity|]. exists limit. split; [reflexivity|].
        inversion H as [H1]. by apply Z.ltb_lt.
      * intros [_ (l & Hl & Hlt)]. inversion Hl; subst. f_equal. by apply Z.ltb_lt.
    + split; [discriminate | intros [_ (l & Hl & _)]; discriminate].
  - intros ->. simpl. destruct (isOpen p); [|reflexivity]. by rewrite Z.ltb_irrefl.
Qed.

End Predicates.

Example predicates_of_a_merged_record :
  isOpen (merged_record 1) = false
  /\ isAbandoned (merged_record 1) = PBool false
  /\ isMerged (merged_record 1) = PDate (ymd2ord 2024 1 4)
  /\ timeToClose (merged_record 1) = Ret 3.
Proof. vm_compute. auto. Qed.

Example predicates_of_an_open_record :
  isOpen merged_unclosed = true
  /\ isAbandoned merged_unclosed = PNone
  /\ timeToClose merged_unclosed = Raise TypeError
  /\ openFor (R := scenario_runtime) merged_unclosed = 60
  /\ needsAttention (R := scenario_runtime) merged_unclosed 15 = Ret true
  /\ needsAttention (R := scenario_runtime) merged_unclosed 60 = Ret false.
Proof. vm_compute. auto 10. Qed.

Example User_str_fallbacks :
  User_str {| info := alice |} = Ret "Alice"
  /\ User_str {| info := JObj [("login", JStr "bob"); ("name", JNull)] |} = Ret "bob"
  /\ User_str {| info := JObj [("message", JStr "Not Found")] |} = Ret "None".
Proof. vm_compute. auto. Qed.

(** C4, as the claim states it, fails on a record with a merge date and no
    closing date, which [ScyllaPR] builds from an object whose [closed_at] is
    null: it is merged and open at once. *)
Lemma status_exclusive_counterexample :
  fst (ScyllaPR_init (R := scenario_runtime) merged_unclosed_json "secret" initial_world)
    = Ret merged_unclosed
  /\ ~ status_exclusive merged_unclosed.
Proof.
  split; [vm_compute; reflexivity|].
  intros (_ & H & _). specialize (H eq_refl). discriminate.
Qed.

Lemma status_predicates_exclusive_witness :
  merge_implies_closed
    {| token := "secret"; created_at := ymd2ord 2024 1 1; url := JNull;
       closed_at := Some (ymd2ord 2024 1 4); merged_at := Some (ymd2ord 2024 1 4);
       title := JNull; user := {| info := alice |}; reviewers := [] |}
  /\ isOpen
       {| token := "secret"; created_at := ymd2ord 2024 1 1; url := JNull;
          closed_at := Some (ymd2ord 2024 1 4); merged_at := Some (ymd2ord 2024 1 4);
          title := JNull; user := {| info := alice |}; reviewers := [] |} = false.
Proof.
  assert (Hinv : merge_implies_closed
    {| token := "secret"; created_at := ymd2ord 2024 1 1; url := JNull;
       closed_at := Some (ymd2ord 2024 1 4); merged_at := Some (ymd2ord 2024 1 4);
       title := JNull; user := {| info := alice |}; reviewers := [] |}).
  { intros _. simpl. eexists. reflexivity. }
  split; [exact Hinv|].
  apply (status_predicates_exclusive _); [exact Hinv | reflexivity].
Defined.

Lemma needsAttention_iff_witness :
  date_sub_days (today (Runtime := scenario_runtime)) 60 = Ret (ymd2ord 2024 1 1)
  /\ needsAttention (R := scenario_runtime)
       {| token := "secret"; created_at := ymd2ord 2024 1 1; url := JNull;
          closed_at := None; merged_at := None;
          title := JNull; user := {| info := alice |}; reviewers := [] |} 60 = Ret false.
Proof.
  split; [vm_compute; reflexivity|].
  apply (needsAttention_iff (R := scenario_runtime)). vm_compute. reflexivity.
Defined.

(** ** The reporter *)

Lemma with_stdout_app (w : world) (a b : list string) :
  with_stdout (with_stdout w a) b = with_stdout w (a ++ b).
Proof. unfold with_stdout. simpl. by rewrite app_assoc. Qed.

Lemma print_eq (s : string) (w : world) : print s w = (Ret tt, with_stdout w [s]).
Proof. reflexivity. Qed.

(** Running a sequence step by step. *)
Lemma mbind_run {A B : Type} (m : M A) (f : A -> M B) (w w' : world) (a : A) :
  m w = (Ret a, w') -> mbind m f w = f a w'.
Proof. intros H. unfold mbind. by rewrite H. Qed.

Lemma mbind_mret {A B : Type} (a : A) (f : A -> M B) (w : world) :
  mbind (mret a) f w = f a w.
Proof. reflexivity. Qed.

Lemma mbind_lift_Ret {A B : Type} (a : A) (f : A -> M B) (w : world) :
  mbind (lift (Ret a)) f w = f a w.
Proof. reflexivity. Qed.

Lemma mbind_print {B : Type} (s : string) (f : unit -> M B) (w : world) :
  mbind (print s) f w = f tt (with_stdout w [s]).
Proof. reflexivity. Qed.

Lemma mbind_assoc {A B C : Type} (m : M A) (f : A -> M B) (g : B -> M C) (w : world) :
  mbind (mbind m f) g w = mbind m (fun a => mbind (f a) g) w.
Proof. unfold mbind. destruct (m w) as [[a|r] w']; reflexivity. Qed.

Ltac eval_format :=
  repeat match goal with
  | |- context [py_format ?t ?a ?k] =>
      let r := eval vm_compute in (py_format t a k) in
      progress change (py_format t a k) with r
  end.

Ltac run_step :=
  first [ rewrite mbind_assoc | rewrite mbind_mret | rewrite mbind_lift_Ret
        | rewrite mbind_print | progress eval_format ];
  cbn beta.

Lemma pad_left_0 (c : ascii) (s : string) : pad_left c 0 s = s.
Proof. reflexivity. Qed.

Lemma format_average (action : string) (n : Z) :
  py_format (TAB +:+ "Average time to {}: {:d} days") [FStr action; FInt n] []
  = Ret (average_line action n).
Proof.
  unfold py_format, average_line. eval_scan. cbn.
  by rewrite pad_left_0, !append_empty_r.
Qed.

Lemma format_peak (action : string) (n : Z) :
  py_format (TAB +:+ "Peak time to {}: {:d} days") [FStr action; FInt n] []
  = Ret (peak_line action n).
Proof.
  unfold py_format, peak_line. eval_scan. cbn.
  by rewrite pad_left_0, !append_empty_r.
Qed.

Lemma format_histogram (action : string) :
  py_format (TAB +:+ "Histogram of {} time: in days") [FStr action] []
  = Ret (histogram_line action).
Proof.
  unfold py_format, histogram_line. eval_scan. cbn. by rewrite !append_empty_r.
Qed.

Lemma format_bin (k c : Z) :
  py_format (TAB +:+ TAB +:+ "{:3d}: {}") [FInt k; FStr (repeat_char "@" (Z.to_nat c))] []
  = Ret (bin_line k (Z.to_nat c)).
Proof.
  unfold py_format, bin_line. eval_scan.
  cbn [render_pieces obind field_arg nth_error fst snd].
  change (apply_spec "3d" (FInt k)) with (@Ret string (pad_left " " 3 (str_of_int k))).
  cbn [obind apply_spec]. rewrite !append_empty_r.
  reflexivity.
Qed.

Lemma format_period_KeyError (d : Z) :
  py_format "for the past {days} days" [FInt d] [] = Raise (KeyError "days").
Proof. reflexivity. Qed.

Lemma sorted_keys_initial :
  sorted_keys_of initial_bins = [0; 1; 2; 3; 4; 5; 6; 7; 15; 21; 30; 60; 120].
Proof. vm_compute. reflexivity. Qed.

Lemma trim_initial_bins :
  trim_keys initial_bins [0; 1; 2; 3; 4; 5; 6; 7; 15; 21; 30; 60; 120] = Raise IndexError.
Proof. vm_compute. reflexivity. Qed.

(** A close time past the last threshold changes no bin. *)
Lemma count_into_over (x : Z) (bins : gmap Z Z) :
  120 < x ->
  count_into x [0; 1; 2; 3; 4; 5; 6; 7; 15; 21; 30; 60; 120] bins = Ret bins.
Proof.
  intros Hx. unfold count_into.
  repeat match goal with
  | |- context [x <=? ?k] => destruct (Z.leb_spec x k); [lia|]
  end.
  reflexivity.
Qed.

Lemma fill_bins_over (data : list Z) (bins : gmap Z Z) :
  Forall (fun x => 120 < x) data ->
  fill_bins data [0; 1; 2; 3; 4; 5; 6; 7; 15; 21; 30; 60; 120] bins = Ret bins.
Proof.
  induction 1 as [|x data Hx _ IH]; [reflexivity|].
  cbn [fill_bins]. rewrite count_into_over by exact Hx. exact IH.
Qed.

Lemma omap_length {A B : Type} (f : A -> outcome B) (l : list A) (l' : list B) :
  omap f l = Ret l' -> length l' = length l.
Proof.
  revert l'. induction l as [|x l IH]; intros l'; simpl.
  - intros [= <-]. reflexivity.
  - destruct (f x) as [y|]; [|discriminate]. simpl.
    destruct (omap f l) as [ys|]; [|discriminate]. simpl.
    intros [= <-]. simpl. f_equal. by apply IH.
Qed.

Lemma omap_Forall {A B : Type} (f : A -> outcome B) (P : B -> Prop) (l : list A) :
  Forall (fun x => exists y, f x = Ret y /\ P y) l ->
  exists l', omap f l = Ret l' /\ Forall P l'.
Proof.
  induction 1 as [|x l (y & Hy & HP) _ (l' & Hl' & HPl')].
  - exists []. split; [reflexivity | constructor].
  - exists (y :: l'). simpl. rewrite Hy, Hl'. split; [reflexivity | by constructor].
Qed.

(** The loop trims from the end: what it drops are the trailing keys whose
    count is zero, and it stops at the first key from the end that counts
    something. *)
Lemma trim_keys_spec (bins : gmap Z Z) (keys kept : list Z) :
  trim_keys bins keys = Ret kept ->
  exists dropped,
    keys = (kept ++ dropped)%list
    /\ Forall (fun k => bins !! k = Some 0) dropped
    /\ exists k c, last kept = Some k /\ bins !! k = Some c /\ c <> 0.
Proof.
  revert kept.
  apply (trim_keys_elim (fun bins keys res => forall kept, res = Ret kept ->
    exists dropped,
      keys = (kept ++ dropped)%list
      /\ Forall (fun k => bins !! k = Some 0) dropped
      /\ exists k c, last kept = Some k /\ bins !! k = Some c /\ c <> 0));
    clear bins keys.
  - intros bins keys _ _ kept H. discriminate.
  - intros bins keys k r _ _ _ kept H. discriminate.
  - intros bins keys k c Hlast IH Hc Hget _ kept Hres.
    destruct (IH kept Hres) as (dropped & Hkeys & Hzero & Hkept).
    exists (dropped ++ [k])%list. repeat split; [| |exact Hkept].
    + apply last_Some in Hlast as [l' ->].
      rewrite removelast_last in Hkeys. rewrite Hkeys. by rewrite app_assoc.
    + apply Forall_app. split; [exact Hzero|]. constructor; [|constructor].
      unfold bins_get in Hget. destruct (bins !! k) as [c'|]; [|discriminate].
      inversion Hget; subst. f_equal. by apply Z.eqb_eq.
  - intros bins keys k c Hlast Hc Hget _ kept [= <-].
    exists []. rewrite app_nil_r. repeat split; [constructor|].
    exists k, c. repeat split; [exact Hlast| |by apply Z.eqb_neq].
    unfold bins_get in Hget. destruct (bins !! k) as [c'|]; [|discriminate].
    by inversion Hget.
Qed.

Section Reporter.
Context {R : Runtime}.

(** What [printHistogram] does once the close times are known. *)
Lemma printHistogram_unfold (closedPR : list ScyllaPR) (action : string) (w : world)
    (data : list Z) :
  omap timeToClose closedPR = Ret data ->
  printHistogram closedPR action w =
  match fill_bins data (sorted_keys_of initial_bins) initial_bins with
  | Abort r => (Abort r, w)
  | Ret bins =>
      match average data with
      | Abort r => (Abort r, w)
      | Ret avg =>
          match py_max data with
          | Abort r => (Abort r, with_stdout w [average_line action avg])
          | Ret peak =>
              let w' := with_stdout w [average_line action avg; peak_line action peak;
                                       histogram_line action] in
              match trim_keys bins (sorted_keys_of initial_bins) with
              | Abort r => (Abort r, w')
              | Ret keys => print_bins keys bins w'
              end
          end
      end
  end.
Proof.
  intros Hdata. unfold printHistogram, mbind, lift. rewrite Hdata.
  destruct (fill_bins _ _ _) as [bins|]; [|reflexivity].
  destruct (average data) as [avg|]; [|reflexivity].
  rewrite format_average, print_eq.
  destruct (py_max data) as [peak|]; [|reflexivity].
  rewrite format_peak, print_eq, format_histogram, print_eq, !with_stdout_app.
  simpl. destruct (trim_keys _ _); reflexivity.
Qed.

(** C10: on a non-empty sequence whose close times all exceed 120 days every
    bin stays zero, the trimming loop pops every key, and indexing the emptied
    key list raises [IndexError], after the three summary lines. *)
Theorem printHistogram_over_120_IndexError
    (closedPR : list ScyllaPR) (action : string) (w : world) :
  closedPR <> [] ->
  Forall (fun p => exists t, timeToClose p = Ret t /\ 120 < t) closedPR ->
  bins_of closedPR = Ret initial_bins
  /\ trim_keys initial_bins (sorted_keys_of initial_bins) = Raise IndexError
  /\ exists avg peak,
       printHistogram closedPR action w
       = (Raise IndexError,
          with_stdout w [average_line action avg; peak_line action peak;
                         histogram_line action]).
Proof.
  intros Hne Hall.
  destruct (omap_Forall timeToClose (fun t => 120 < t) closedPR Hall)
    as (data & Hdata & Hover).
  assert (Hfill : fill_bins data (sorted_keys_of initial_bins) initial_bins
                  = Ret initial_bins).
  { rewrite sorted_keys_initial. by apply fill_bins_over. }
  assert (Htrim : trim_keys initial_bins (sorted_keys_of initial_bins) = Raise IndexError).
  { rewrite sorted_keys_initial. apply trim_initial_bins. }
  split; [unfold bins_of; rewrite Hdata; exact Hfill|].
  split; [exact Htrim|].
  rewrite (printHistogram_unfold _ _ _ data Hdata), Hfill.
  destruct data as [|x data].
  { apply omap_length in Hdata. destruct closedPR; [congruence | discriminate]. }
  cbn [average py_max]. rewrite Htrim. cbn zeta. eauto.
Qed.

Lemma print_bins_cons (k : Z) (ks : list Z) (bins : gmap Z Z) (c : Z) (w : world) :
  bins !! k = Some c ->
  print_bins (k :: ks) bins w = print_bins ks bins (with_stdout w [bin_line k (Z.to_nat c)]).
Proof.
  intros Hk. cbn [print_bins]. unfold mbind, lift, bins_get. rewrite Hk.
  rewrite format_bin, print_eq. reflexivity.
Qed.

(** C6: the trimming loop drops exactly the trailing keys whose count is
    zero, from the largest threshold downward; for the close times
    [[0, 1, 1]] the histogram printed is bin 0 with one mark and bin 1 with
    two, and no line for 2, 3, 4, 5, 6, 7, 15, 21, 30, 60 or 120. *)
Theorem printHistogram_trims_trailing_bins :
  (forall (bins : gmap Z Z) (keys kept : list Z),
     trim_keys bins keys = Ret kept ->
     exists dropped,
       keys = (kept ++ dropped)%list
       /\ Forall (fun k => bins !! k = Some 0) dropped
       /\ exists k c, last kept = Some k /\ bins !! k = Some c /\ c <> 0)
  /\ (forall (closedPR : list ScyllaPR) (action : string) (w : world),
       omap timeToClose closedPR = Ret [0; 1; 1] ->
       printHistogram closedPR action w
       = (Ret tt,
          with_stdout w [average_line action 0; peak_line action 1;
                         histogram_line action; bin_line 0 1; bin_line 1 2])).
Proof.
  split; [exact trim_keys_spec|].
  intros closedPR action w Hdata.
  rewrite (printHistogram_unfold _ _ _ _ Hdata), sorted_keys_initial.
  assert (Hfill : fill_bins [0; 1; 1] [0; 1; 2; 3; 4; 5; 6; 7; 15; 21; 30; 60; 120]
                    initial_bins = Ret (<[1 := 2]> (<[0 := 1]> initial_bins))).
  { vm_compute. reflexivity. }
  rewrite Hfill.
  assert (Htrim : trim_keys (<[1 := 2]> (<[0 := 1]> initial_bins))
                    [0; 1; 2; 3; 4; 5; 6; 7; 15; 21; 30; 60; 120] = Ret [0; 1]).
  { vm_compute. reflexivity. }
  change (average [0; 1; 1]) with (@Ret Z 0).
  change (py_max [0; 1; 1]) with (@Ret Z 1).
  cbn zeta. cbn match. rewrite Htrim.
  rewrite (print_bins_cons 0 _ _ 1) by (vm_compute; reflexivity).
  rewrite (print_bins_cons 1 _ _ 2) by (vm_compute; reflexivity).
  cbn [print_bins]. unfold mret. by rewrite !with_stdout_app.
Qed.

(** C3, as the code has it: with a non-zero period [printStats] raises
    [KeyError] while it formats the period header (the template names the
    field [days], the value is passed by position) and prints nothing. *)
Theorem printStats_period_KeyError
    (days : Z) (openPR : list ScyllaPR) (abandonedPR mergedPR : option (list ScyllaPR))
    (w : world) :
  days <> 0 ->
  printStats (Some days) openPR abandonedPR mergedPR w = (Raise (KeyError "days"), w).
Proof.
  intros Hdays. unfold printStats, days_truthy.
  apply Z.eqb_neq in Hdays. rewrite Hdays. cbn [negb].
  unfold mbind, lift. by rewrite format_period_KeyError.
Qed.

(** *** No division by zero outside the average *)

Lemma obind_no_zde {A B : Type} (o : outcome A) (f : A -> outcome B) :
  no_zde o -> (forall a, o = Ret a -> no_zde (f a)) -> no_zde (obind o f).
Proof.
  destruct o as [a|r]; simpl; intros Ho Hf; [by apply Hf|].
  intros H. apply Ho. unfold Raise in *. congruence.
Qed.

Lemma no_zde_abort {A B : Type} (r : abort) : no_zde (@Abort A r) -> no_zde (@Abort B r).
Proof. unfold no_zde, Raise. congruence. Qed.

Lemma scan_template_no_zde (s : string) (st : scan_state) (out : list piece) :
  no_zde (scan_template s st out).
Proof.
  revert st out. induction s as [|c s IH]; intros st out.
  - destruct st; simpl; discriminate.
  - destruct st; simpl;
      repeat match goal with
      | |- context [Ascii.eqb ?a ?b] => destruct (Ascii.eqb a b)
      end; first [apply IH | discriminate].
Qed.

Lemma field_arg_no_zde name auto args kwargs : no_zde (field_arg name auto args kwargs).
Proof.
  unfold field_arg. destruct name.
  - destruct (nth_error args auto); discriminate.
  - destruct (digits_value _ _) as [i|].
    + destruct (nth_error args i); discriminate.
    + destruct (assoc_get _ kwargs); discriminate.
Qed.

Lemma apply_spec_no_zde spec a : no_zde (apply_spec spec a).
Proof.
  unfold apply_spec. destruct spec, a; try discriminate.
  destruct (String.length _); [discriminate|].
  destruct (String.eqb _ _); [|discriminate].
  destruct (digits_value _ _); discriminate.
Qed.

Lemma render_pieces_no_zde ps auto args kwargs : no_zde (render_pieces ps auto args kwargs).
Proof.
  revert auto. induction ps as [|[s|name spec] ps IH]; intros auto; cbn [render_pieces].
  - discriminate.
  - apply obind_no_zde; [apply IH | discriminate].
  - apply obind_no_zde; [apply field_arg_no_zde | intros af _].
    apply obind_no_zde; [apply apply_spec_no_zde | intros s _].
    apply obind_no_zde; [apply IH | discriminate].
Qed.

Lemma py_format_no_zde template args kwargs : no_zde (py_format template args kwargs).
Proof.
  unfold py_format. apply obind_no_zde; [apply scan_template_no_zde|].
  intros ps _. apply render_pieces_no_zde.
Qed.

Lemma omap_no_zde {A B : Type} (f : A -> outcome B) (l : list A) :
  (forall x, no_zde (f x)) -> no_zde (omap f l).
Proof.
  intros Hf. induction l as [|x l IH]; cbn [omap]; [discriminate|].
  apply obind_no_zde; [apply Hf | intros y _].
  apply obind_no_zde; [apply IH | discriminate].
Qed.

Lemma bins_get_no_zde bins k : no_zde (bins_get bins k).
Proof. unfold bins_get. destruct (bins !! k); discriminate. Qed.

Lemma count_into_no_zde x keys bins : no_zde (count_into x keys bins).
Proof.
  induction keys as [|k ks IH]; cbn [count_into]; [discriminate|].
  destruct (x <=? k); [|exact IH].
  apply obind_no_zde; [apply bins_get_no_zde | discriminate].
Qed.

Lemma fill_bins_no_zde data keys bins : no_zde (fill_bins data keys bins).
Proof.
  revert bins. induction data as [|x data IH]; intros bins; cbn [fill_bins]; [discriminate|].
  apply obind_no_zde; [apply count_into_no_zde | intros b _; apply IH].
Qed.

Lemma trim_keys_no_zde bins keys : no_zde (trim_keys bins keys).
Proof.
  apply (trim_keys_elim (fun _ _ res => no_zde res)); clear bins keys.
  - discriminate.
  - intros bins keys k r _ Hget _ H.
    apply (bins_get_no_zde bins k). rewrite Hget. unfold Raise in *. congruence.
  - intros bins keys k c _ IH _ _ _. exact IH.
  - discriminate.
Qed.

Lemma mret_no_zde {A : Type} (a : A) : m_no_zde (mret a).
Proof. intros w. discriminate. Qed.

Lemma lift_no_zde {A : Type} (o : outcome A) : no_zde o -> m_no_zde (lift o).
Proof. intros Ho w. exact Ho. Qed.

Lemma mbind_no_zde {A B : Type} (m : M A) (f : A -> M B) :
  m_no_zde m -> (forall a, m_no_zde (f a)) -> m_no_zde (mbind m f).
Proof.
  intros Hm Hf w. unfold mbind. specialize (Hm w).
  destruct (m w) as [[a|r] w']; simpl in *; [apply Hf|].
  intros H. apply Hm. unfold Raise in *. congruence.
Qed.

Lemma print_no_zde (s : string) : m_no_zde (print s).
Proof. intros w. discriminate. Qed.

Lemma print_bins_no_zde keys bins : m_no_zde (print_bins keys bins).
Proof.
  induction keys as [|k ks IH]; cbn [print_bins]; [apply mret_no_zde|].
  apply mbind_no_zde; [apply lift_no_zde, bins_get_no_zde | intros c].
  apply mbind_no_zde; [apply lift_no_zde, py_format_no_zde | intros line].
  apply mbind_no_zde; [apply print_no_zde | intros _; exact IH].
Qed.

Lemma print_all_no_zde (l : list string) : m_no_zde (print_all l).
Proof.
  induction l as [|x l IH]; cbn [print_all]; [apply mret_no_zde|].
  apply mbind_no_zde; [apply print_no_zde | intros _; exact IH].
Qed.

Lemma timeToClose_no_zde (p : ScyllaPR) : no_zde (timeToClose p).
Proof. unfold timeToClose. destruct (closed_at p); discriminate. Qed.

(** The one division of [printHistogram] has the number of records as its
    divisor: with at least one record it cannot fail. *)
Lemma printHistogram_no_zde (closedPR : list ScyllaPR) (action : string) :
  closedPR <> [] -> m_no_zde (printHistogram closedPR action).
Proof.
  intros Hne w. destruct (omap timeToClose closedPR) as [data|r] eqn:Hdata.
  - rewrite (printHistogram_unfold _ _ _ _ Hdata).
    pose proof (fill_bins_no_zde data (sorted_keys_of initial_bins) initial_bins) as Hfill.
    destruct (fill_bins _ _ _) as [bins|]; [|exact (no_zde_abort _ Hfill)].
    destruct data as [|x data].
    { apply omap_length in Hdata. destruct closedPR; [congruence | discriminate]. }
    cbn [average py_max]. cbn zeta.
    pose proof (trim_keys_no_zde bins (sorted_keys_of initial_bins)) as Htrim.
    destruct (trim_keys _ _) as [keys|]; [|exact (no_zde_abort _ Htrim)].
    apply print_bins_no_zde.
  - pose proof (omap_no_zde timeToClose closedPR timeToClose_no_zde) as Ho.
    unfold printHistogram, mbind, lift. rewrite Hdata. rewrite Hdata in Ho.
    exact (no_zde_abort _ Ho).
Qed.

Lemma needsAttention_no_zde (p : ScyllaPR) (days : Z) : no_zde (needsAttention p days).
Proof.
  unfold needsAttention, date_sub_days. destruct (isOpen p); [|discriminate].
  destruct (_ && _); discriminate.
Qed.

Lemma as_str_no_zde (v : json) : no_zde (as_str v).
Proof. destruct v; discriminate. Qed.

Lemma User_str_no_zde (u : User) : no_zde (User_str u).
Proof.
  unfold User_str. destruct (subscript _ "name") as [name|]; [|discriminate].
  destruct (truthy name); [apply as_str_no_zde|].
  destruct (subscript _ "login"); [apply as_str_no_zde | discriminate].
Qed.

Lemma ScyllaPR_str_no_zde (p : ScyllaPR) : no_zde (ScyllaPR_str p).
Proof.
  unfold ScyllaPR_str. cbn zeta.
  apply obind_no_zde; [apply User_str_no_zde | intros author _].
  apply obind_no_zde; [apply py_format_no_zde | intros l1 _].
  apply obind_no_zde; [apply py_format_no_zde | intros l2 _].
  apply obind_no_zde; [apply py_format_no_zde | intros l3 _].
  destruct (isOpen p).
  - apply obind_no_zde; [apply py_format_no_zde | discriminate].
  - apply obind_no_zde; [apply timeToClose_no_zde | intros ttc _].
    apply obind_no_zde; [destruct (closed_at p); discriminate | intros c _].
    apply obind_no_zde; [apply py_format_no_zde | discriminate].
Qed.

Lemma attention_texts_no_zde (openPR : list ScyllaPR) (attDay : Z) :
  no_zde (attention_texts openPR attDay).
Proof.
  induction openPR as [|x rest IH]; cbn [attention_texts]; [discriminate|].
  apply obind_no_zde; [apply needsAttention_no_zde | intros need _].
  destruct need; [|exact IH].
  apply obind_no_zde; [apply ScyllaPR_str_no_zde | intros s _].
  apply obind_no_zde; [exact IH | discriminate].
Qed.

Lemma bucket_truthy_nonempty (b : option (list ScyllaPR)) :
  bucket_truthy b = true -> bucket_list b <> [].
Proof. destruct b as [[|x l]|]; simpl; congruence. Qed.

(** C9: on an empty sequence [printHistogram] raises [ZeroDivisionError]
    (at the average, before it prints anything); [printStats] never ends in
    that error, whatever its arguments, because it calls [printHistogram] on
    the non-empty merged and abandoned buckets only. *)
Theorem printHistogram_empty_ZeroDivisionError :
  (forall (action : string) (w : world),
     printHistogram [] action w = (Raise ZeroDivisionError, w))
  /\ (forall (days : option Z) (openPR : list ScyllaPR)
        (abandonedPR mergedPR : option (list ScyllaPR)) (w : world),
       fst (printStats days openPR abandonedPR mergedPR w) <> Raise ZeroDivisionError).
Proof.
  split; [reflexivity|].
  intros days openPR abandonedPR mergedPR.
  change (m_no_zde (printStats days openPR abandonedPR mergedPR)).
  unfold printStats.
  apply mbind_no_zde.
  { destruct (days_truthy days);
      [apply lift_no_zde, py_format_no_zde | apply mret_no_zde]. }
  intros period.
  apply mbind_no_zde.
  { destruct (bucket_truthy mergedPR) eqn:Hm; [|apply mret_no_zde].
    apply mbind_no_zde; [apply lift_no_zde, py_format_no_zde | intros l].
    apply mbind_no_zde; [apply print_no_zde | intros _].
    by apply printHistogram_no_zde, bucket_truthy_nonempty. }
  intros _.
  apply mbind_no_zde.
  { destruct (bucket_truthy abandonedPR) eqn:Ha; [|apply mret_no_zde].
    apply mbind_no_zde; [apply lift_no_zde, py_format_no_zde | intros l].
    apply mbind_no_zde; [apply print_no_zde | intros _].
    by apply printHistogram_no_zde, bucket_truthy_nonempty. }
  intros _.
  apply mbind_no_zde; [apply lift_no_zde, py_format_no_zde | intros l].
  apply mbind_no_zde; [apply print_no_zde | intros _].
  cbn zeta.
  apply mbind_no_zde; [apply lift_no_zde, attention_texts_no_zde | intros texts].
  destruct (0 <? len texts); [|apply mret_no_zde].
  apply mbind_no_zde; [apply lift_no_zde, py_format_no_zde | intros h].
  apply mbind_no_zde; [apply print_no_zde | intros _].
  apply print_all_no_zde.
Qed.

(** C2, as amended: with no period given, no open and no abandoned pull
    request, and one merged pull request created on 2024-01-01 and closed on
    2024-01-04, the report counts one merged pull request and its histogram
    has the lines of bins 0, 1 and 2 empty and one mark in bin 3 (the close
    time is 3 days); no line is printed for bin 4. *)
Theorem printStats_scenario_report
    (tok : string) (html_url ttl : json) (merged : date) (usr : User)
    (revs : list User) (w : world) :
  printStats None []
    (Some [])
    (Some [ {| token := tok; created_at := ymd2ord 2024 1 1; url := html_url;
               closed_at := Some (ymd2ord 2024 1 4); merged_at := Some merged;
               title := ttl; user := usr; reviewers := revs |} ]) w
  = (Ret tt,
     with_stdout w
       [ "Merged Pull Requests For the entire life of the repository: 1" +:+ NL;
         average_line "merge" 3; peak_line "merge" 3; histogram_line "merge";
         bin_line 0 0; bin_line 1 0; bin_line 2 0; bin_line 3 1;
         NL +:+ "Currently Open Pull Requests: 0" +:+ NL ]).
Proof.
  assert (Hhist : forall w0,
    printHistogram
      [ {| token := tok; created_at := ymd2ord 2024 1 1; url := html_url;
           closed_at := Some (ymd2ord 2024 1 4); merged_at := Some merged;
           title := ttl; user := usr; reviewers := revs |} ] "merge" w0
    = (Ret tt, with_stdout w0 [average_line "merge" 3; peak_line "merge" 3;
                               histogram_line "merge";
                               bin_line 0 0; bin_line 1 0; bin_line 2 0; bin_line 3 1])).
  { intros w0.
    rewrite (printHistogram_unfold _ _ _ [3]) by reflexivity.
    rewrite sorted_keys_initial.
    assert (Hfill : fill_bins [3] [0; 1; 2; 3; 4; 5; 6; 7; 15; 21; 30; 60; 120]
                      initial_bins = Ret (<[3 := 1]> initial_bins)).
    { vm_compute. reflexivity. }
    rewrite Hfill.
    assert (Htrim : trim_keys (<[3 := 1]> initial_bins)
                      [0; 1; 2; 3; 4; 5; 6; 7; 15; 21; 30; 60; 120] = Ret [0; 1; 2; 3]).
    { vm_compute. reflexivity. }
    change (average [3]) with (@Ret Z 3).
    change (py_max [3]) with (@Ret Z 3).
    cbn zeta. cbn match. rewrite Htrim.
    rewrite (print_bins_cons 0 _ _ 0) by (vm_compute; reflexivity).
    rewrite (print_bins_cons 1 _ _ 0) by (vm_compute; reflexivity).
    rewrite (print_bins_cons 2 _ _ 0) by (vm_compute; reflexivity).
    rewrite (print_bins_cons 3 _ _ 1) by (vm_compute; reflexivity).
    cbn [print_bins]. unfold mret. by rewrite !with_stdout_app. }
  unfold printStats. cbn [days_truthy bucket_truthy bucket_list].
  repeat run_step.
  rewrite (mbind_run _ _ _ _ _ (Hhist _)).
  repeat run_step.
  change (attention_texts (sort_by_openFor_desc []) 15) with (@Ret (list string) []).
  repeat run_step.
  change (0 <? len []) with false. cbn iota. unfold mret.
  rewrite !with_stdout_app. reflexivity.
Qed.

End Reporter.

(** C2, as the claim states it, fails on the run of the script over the
    scenario: the report has no line for bin 4, the mark is in bin 3. *)
Lemma scenario_report_counterexample :
  ~ report_shows_bin_4
      (stdout (snd (main (R := scenario_runtime) 2 scenario_args initial_world))).
Proof.
  intros (_ & H & _). vm_compute in H.
  repeat (destruct H as [H|H]; [discriminate H|]). exact H.
Qed.

Lemma printHistogram_trims_trailing_bins_witness :
  omap timeToClose quick_prs = Ret [0; 1; 1]
  /\ printHistogram quick_prs "merge" initial_world
     = (Ret tt,
        with_stdout initial_world
          [average_line "merge" 0; peak_line "merge" 1; histogram_line "merge";
           bin_line 0 1; bin_line 1 2]).
Proof.
  split; [vm_compute; reflexivity|].
  apply (proj2 printHistogram_trims_trailing_bins). vm_compute. reflexivity.
Defined.

Lemma printStats_period_KeyError_witness :
  30 <> 0
  /\ printStats (R := scenario_runtime) (Some 30) [] (Some []) (Some quick_prs) initial_world
     = (Raise (KeyError "days"), initial_world).
Proof.
  split; [lia|].
  apply (printStats_period_KeyError (R := scenario_runtime)). lia.
Defined.

Lemma printHistogram_over_120_IndexError_witness :
  slow_prs <> []
  /\ Forall (fun p => exists t, timeToClose p = Ret t /\ 120 < t) slow_prs
  /\ exists avg peak,
       printHistogram slow_prs "merge" initial_world
       = (Raise IndexError,
          with_stdout initial_world
            [average_line "merge" avg; peak_line "merge" peak; histogram_line "merge"]).
Proof.
  assert (Hne : slow_prs <> []) by discriminate.
  assert (Hall : Forall (fun p => exists t, timeToClose p = Ret t /\ 120 < t) slow_prs).
  { constructor; [|constructor]. exists 200. split; [vm_compute; reflexivity | lia]. }
  split; [exact Hne|]. split; [exact Hall|].
  exact (proj2 (proj2 (printHistogram_over_120_IndexError slow_prs "merge" initial_world
                         Hne Hall))).
Defined.

(** ** The user resolver and the fetcher *)

Section Fetch.
Context {R : Runtime}.

Lemma requests_get_eq (u : string) (hd : list (string * string)) (resp : response)
    (w : world) :
  server {| req_url := u; req_headers := hd |} = Some resp ->
  requests_get u hd w = (Ret resp, log_request {| req_url := u; req_headers := hd |} w).
Proof. intros H. unfold requests_get. by rewrite H. Qed.

(** C1, as the code has it: resolving the same URL twice from a cache that
    does not hold it sends the same request twice and leaves the cache as it
    was; [User.__init__] reads [User.cache] and never writes it. *)
Theorem User_init_twice_two_requests
    (u tok : string) (resp : response) (j : json) (w : world) :
  User_cache w !! u = None ->
  server {| req_url := u; req_headers := headers_of tok |} = Some resp ->
  body resp = Some j ->
  (User_init (JStr u) tok ;; User_init (JStr u) tok) w
  = (Ret {| info := j |},
     log_request {| req_url := u; req_headers := headers_of tok |}
       (log_request {| req_url := u; req_headers := headers_of tok |} w))
  /\ User_cache (snd ((User_init (JStr u) tok ;; User_init (JStr u) tok) w)) = User_cache w.
Proof.
  intros Hcache Hserver Hbody.
  assert (Hone : forall w0, User_cache w0 !! u = None ->
    User_init (JStr u) tok w0
    = (Ret {| info := j |},
       log_request {| req_url := u; req_headers := headers_of tok |} w0)).
  { intros w0 Hw0. unfold User_init. rewrite auth_headers_eq, mbind_lift_Ret, Hw0.
    rewrite (mbind_run _ _ _ _ _ (requests_get_eq _ _ _ _ Hserver)).
    unfold resp_json. rewrite Hbody. reflexivity. }
  rewrite (mbind_run _ _ _ _ _ (Hone w Hcache)).
  rewrite Hone by exact Hcache. split; reflexivity.
Qed.

(** *** Fetching touches neither the cache nor the output *)

Lemma fetch_only_mret {A : Type} (a : A) : fetch_only (mret a).
Proof. intros w1 w2 _. repeat split. Qed.

Lemma fetch_only_lift {A : Type} (o : outcome A) : fetch_only (lift o).
Proof. intros w1 w2 _. repeat split. Qed.

Lemma fetch_only_mbind {A B : Type} (m : M A) (f : A -> M B) :
  fetch_only m -> (forall a, fetch_only (f a)) -> fetch_only (mbind m f).
Proof.
  intros Hm Hf w1 w2 Hc. unfold mbind.
  destruct (Hm w1 w2 Hc) as (H1 & H2 & H3 & H4).
  destruct (Hm w2 w1 (eq_sym Hc)) as (_ & H2' & _).
  destruct (m w1) as [[a1|r1] w1'], (m w2) as [[a2|r2] w2']; simpl in *;
    try discriminate.
  - inversion H1; subst a2.
    destruct (Hf a1 w1' w2') as (F1 & F2 & F3 & F4); [congruence|].
    repeat split; congruence.
  - inversion H1; subst r2. by repeat split.
Qed.

Lemma fetch_only_requests_get (u : string) (hd : list (string * string)) :
  fetch_only (requests_get u hd).
Proof.
  intros w1 w2 _. unfold requests_get. destruct (server _); repeat split.
Qed.

Lemma fetch_only_User_init (userurl : json) (tok : string) :
  fetch_only (User_init userurl tok).
Proof.
  unfold User_init. apply fetch_only_mbind; [apply fetch_only_lift | intros hd].
  destruct userurl as [| | |u| |]; try apply fetch_only_lift.
  intros w1 w2 Hc. rewrite Hc.
  destruct (User_cache w2 !! u) as [cached|]; [by repeat split|].
  assert (Hget : fetch_only (let* resp := requests_get u hd in
                             let* j := lift (resp_json resp) in
                             mret {| info := j |})).
  { apply fetch_only_mbind; [apply fetch_only_requests_get | intros resp].
    apply fetch_only_mbind; [apply fetch_only_lift | intros j].
    apply fetch_only_mret. }
  destruct (Hget w1 w2 Hc) as (G1 & G2 & G3 & G4). repeat split; congruence.
Qed.

Lemma fetch_only_mmap {A B : Type} (f : A -> M B) (l : list A) :
  (forall x, fetch_only (f x)) -> fetch_only (mmap f l).
Proof.
  intros Hf. induction l as [|x l IH]; cbn [mmap]; [apply fetch_only_mret|].
  apply fetch_only_mbind; [apply Hf | intros y].
  apply fetch_only_mbind; [exact IH | intros ys; apply fetch_only_mret].
Qed.

Lemma fetch_only_ScyllaPR_init (x : json) (tok : string) :
  fetch_only (ScyllaPR_init x tok).
Proof.
  unfold ScyllaPR_init.
  repeat (apply fetch_only_mbind;
          [first [ apply fetch_only_lift | apply fetch_only_User_init | idtac ]
          | intros ?]).
  - apply fetch_only_mmap. intros y.
    apply fetch_only_mbind; [apply fetch_only_lift | intros yu].
    apply fetch_only_User_init.
  - apply fetch_only_mret.
Qed.

(** From any world, [ScyllaPR(x, token)] gives the record of [record_of]. *)
Lemma ScyllaPR_init_record (x : json) (tok : string) (w : world) :
  fst (ScyllaPR_init x tok w) = record_of (User_cache w) x tok.
Proof.
  unfold record_of. by apply (fetch_only_ScyllaPR_init x tok w (blank (User_cache w))).
Qed.
(** The comprehension builds the records of the accepted items, in order,
    and constructs nothing for a rejected item. *)
Lemma build_records_accepted (items : list json) (tok : string)
    (add_criteria : json -> outcome bool) (records : list ScyllaPR) (w : world) :
  Forall (fun x => exists b, add_criteria x = Ret b) items ->
  Forall2 (fun x p => record_of (User_cache w) x tok = Ret p)
    (List.filter (accepts add_criteria) items) records ->
  exists w',
    build_records items tok add_criteria w = (Ret records, w')
    /\ User_cache w' = User_cache w
    /\ stdout w' = stdout w
    /\ stderr w' = stderr w.
Proof.
  intros Htotal. revert records w.
  induction Htotal as [|x items (b & Hb) _ IH]; intros records w Hrec.
  - inversion Hrec; subst. exists w. by repeat split.
  - cbn [build_records List.filter] in *. unfold accepts in Hrec at 1.
    rewrite Hb in *. rewrite mbind_lift_Ret. destruct b.
    + inversion Hrec as [|x' p l ps Hp Hps]; subst.
      destruct (fetch_only_ScyllaPR_init x tok w w eq_refl) as (_ & C1 & C2 & C3).
      rewrite <- ScyllaPR_init_record in Hp.
      destruct (ScyllaPR_init x tok w) as [o w1] eqn:Hinit. simpl in *. subst o.
      rewrite <- C1 in Hps. destruct (IH ps w1 Hps) as (w' & Hrun & D1 & D2 & D3).
      exists w'. unfold mbind. rewrite Hinit, Hrun. unfold mret.
      repeat split; congruence.
    + apply IH. exact Hrec.
Qed.

(** The loop of [getGithubData] along a walk, from any accumulated list. *)
Lemma fetch_pages_walk (hd : list (string * string)) (tok : string)
    (add_criteria : json -> outcome bool) (c : gmap string json)
    (u : string) (pages : list (list json)) (stop : option string) :
  walk hd u pages stop ->
  forall (records acc : list ScyllaPR) (w : world) (fuel : nat),
    User_cache w = c ->
    Forall (fun x => exists b, add_criteria x = Ret b) (concat pages) ->
    Forall2 (fun x p => record_of c x tok = Ret p)
      (List.filter (accepts add_criteria) (concat pages)) records ->
    match stop with
    | None =>
        (length pages <= fuel)%nat ->
        exists w',
          fetch_pages fuel u hd tok add_criteria acc w = (Ret (acc ++ records)%list, w')
          /\ stdout w' = stdout w /\ stderr w' = stderr w
    | Some bad =>
        (length pages < fuel)%nat ->
        exists w',
          fetch_pages fuel u hd tok add_criteria acc w = (Abort (SysExit (-1)), w')
          /\ stdout w' = stdout w
          /\ stderr w' = (stderr w ++ [api_error_line])%list
    end.
Proof.
  induction 1 as [u resp items (Hsrv & Hst & j & Hbody & Hiter) Hnext
                 |u resp items next_url pages stop (Hsrv & Hst & j & Hbody & Hiter) Hnext _ IH
                 |u resp Hsrv Hst];
    intros records acc w fuel Hc Htotal Hrec.
  - intros Hfuel. destruct fuel as [|fuel]; [simpl in Hfuel; lia|].
    cbn [concat] in Htotal, Hrec. rewrite app_nil_r in Htotal, Hrec.
    cbn [fetch_pages].
    rewrite (mbind_run _ _ _ _ _ (requests_get_eq _ _ _ _ Hsrv)).
    rewrite Hst. cbn [Z.eqb Pos.eqb negb]. unfold resp_json. rewrite Hbody, mbind_lift_Ret.
    rewrite Hiter, mbind_lift_Ret.
    destruct (build_records_accepted items tok add_criteria records
                (log_request {| req_url := u; req_headers := hd |} w) Htotal)
      as (w' & Hrun & D1 & D2 & D3); [by rewrite <- Hc in Hrec|].
    rewrite (mbind_run _ _ _ _ _ Hrun). cbn zeta. rewrite Hnext.
    exists w'. by repeat split.
  - cbn [concat] in Htotal, Hrec. apply Forall_app in Htotal as [Htot1 Htot2].
    rewrite List.filter_app in Hrec.
    apply Forall2_app_inv_l in Hrec as (r1 & r2 & Hr1 & Hr2 & ->).
    destruct (build_records_accepted items tok add_criteria r1
                (log_request {| req_url := u; req_headers := hd |} w) Htot1)
      as (w1 & Hrun & D1 & D2 & D3); [by rewrite <- Hc in Hr1|].
    assert (Hstep : forall fuel,
      fetch_pages (S fuel) u hd tok add_criteria acc w
      = fetch_pages fuel next_url hd tok add_criteria (acc ++ r1)%list w1).
    { intros fuel'. cbn [fetch_pages].
      rewrite (mbind_run _ _ _ _ _ (requests_get_eq _ _ _ _ Hsrv)).
      rewrite Hst. cbn [Z.eqb Pos.eqb negb]. unfold resp_json.
      rewrite Hbody, mbind_lift_Ret, Hiter, mbind_lift_Ret.
      rewrite (mbind_run _ _ _ _ _ Hrun). cbn zeta. by rewrite Hnext. }
    assert (Hc1 : User_cache w1 = c) by (simpl in D1; congruence).
    specialize (IH r2 (acc ++ r1)%list w1).
    destruct stop as [bad|]; intros Hfuel;
      (destruct fuel as [|fuel]; [simpl in Hfuel; lia|]);
      rewrite Hstep;
      (destruct (IH fuel Hc1 Htot2 Hr2) as (w' & Hrun' & E1 & E2);
       [simpl in Hfuel; lia|]);
      exists w'.
    + simpl in D2, D3. repeat split; congruence.
    + rewrite <- app_assoc in Hrun'. simpl in D2, D3. repeat split; congruence.
  - intros Hfuel. destruct fuel as [|fuel]; [simpl in Hfuel; lia|].
    cbn [fetch_pages].
    rewrite (mbind_run _ _ _ _ _ (requests_get_eq _ _ _ _ Hsrv)).
    apply Z.eqb_neq in Hst. rewrite Hst. cbn [negb].
    eexists. split; [reflexivity|]. split; reflexivity.
Qed.

(** Items that the predicate rejects are skipped before anything is built
    from them: no record, no request, the world is untouched. *)
Lemma build_records_rejected (items : list json) (tok : string)
    (add_criteria : json -> outcome bool) (w : world) :
  Forall (fun x => add_criteria x = Ret false) items ->
  build_records items tok add_criteria w = (Ret [], w).
Proof.
  induction 1 as [|x items Hx _ IH]; [reflexivity|].
  cbn [build_records]. by rewrite Hx, mbind_lift_Ret.
Qed.

(** C7: along a chain of pages linked by [next], the fetch returns the
    records of the accepted items, pages in fetch order and items in page
    order.  The predicate sees the raw object before anything is built from
    it: only the accepted items have to be constructible, and a page whose
    items are all rejected adds no record and sends no request of its own. *)
Theorem getGithubData_pages_in_order
    (tok : string) (add_criteria : json -> outcome bool) (u : string)
    (pages : list (list json)) (records : list ScyllaPR) (w : world) :
  walk (headers_of tok) u pages None ->
  Forall (fun x => exists b, add_criteria x = Ret b) (concat pages) ->
  Forall2 (fun x p => record_of (User_cache w) x tok = Ret p)
    (List.filter (accepts add_criteria) (concat pages)) records ->
  forall fuel, (length pages <= fuel)%nat ->
    fst (getGithubData fuel u tok add_criteria w) = Ret records
    /\ forall items w0,
         In items pages ->
         Forall (fun x => add_criteria x = Ret false) items ->
         build_records items tok add_criteria w0 = (Ret [], w0).
Proof.
  intros Hwalk Htotal Hrec fuel Hfuel. split.
  - unfold getGithubData. cbn zeta. rewrite auth_headers_eq, mbind_lift_Ret.
    destruct (fetch_pages_walk _ tok add_criteria _ _ _ _ Hwalk records [] w fuel
                eq_refl Htotal Hrec Hfuel) as (w' & Hrun & _).
    by rewrite Hrun.
  - intros items w0 _ Hrej. by apply build_records_rejected.
Qed.

(** C8: when the chain leads to a page that answers with a status other
    than 200, the fetch writes one line to the diagnostic stream and exits
    with code -1; it returns nothing, so the records built from the earlier
    pages are lost. *)
Theorem getGithubData_failure_exits
    (tok : string) (add_criteria : json -> outcome bool) (u bad : string)
    (pages : list (list json)) (records : list ScyllaPR) (w : world) :
  walk (headers_of tok) u pages (Some bad) ->
  Forall (fun x => exists b, add_criteria x = Ret b) (concat pages) ->
  Forall2 (fun x p => record_of (User_cache w) x tok = Ret p)
    (List.filter (accepts add_criteria) (concat pages)) records ->
  forall fuel, (length pages < fuel)%nat ->
    exists w',
      getGithubData fuel u tok add_criteria w = (Abort (SysExit (-1)), w')
      /\ stderr w' = (stderr w ++ [api_error_line])%list
      /\ stdout w' = stdout w.
Proof.
  intros Hwalk Htotal Hrec fuel Hfuel.
  unfold getGithubData. cbn zeta. rewrite auth_headers_eq, mbind_lift_Ret.
  destruct (fetch_pages_walk _ tok add_criteria _ _ _ _ Hwalk records [] w fuel
              eq_refl Htotal Hrec Hfuel) as (w' & Hrun & E1 & E2).
  exists w'. by repeat split.
Qed.

End Fetch.

(** *** Runs on explicit servers *)

Ltac serve_page :=
  split; [vm_compute; reflexivity
         | split; [reflexivity | eexists; split; reflexivity]].

Lemma User_init_twice_two_requests_witness :
  (User_init (R := scenario_runtime) (JStr alice_url) "secret" ;;
   User_init (R := scenario_runtime) (JStr alice_url) "secret") initial_world
  = (Ret {| info := alice |},
     log_request {| req_url := alice_url; req_headers := headers_of "secret" |}
       (log_request {| req_url := alice_url; req_headers := headers_of "secret" |}
          initial_world)).
Proof.
  apply (User_init_twice_two_requests (R := scenario_runtime)
           alice_url "secret" (ok_doc alice) alice initial_world);
    vm_compute; reflexivity.
Defined.

Lemma getGithubData_pages_in_order_witness :
  fst (getGithubData (R := paged_runtime) 3 page1_url "secret" read_all initial_world)
  = Ret [merged_record 1; merged_record 2; merged_record 3; merged_record 4;
         merged_record 5]
  /\ fst (getGithubData (R := raw_runtime) 3 page1_url "secret" reject_page_2 initial_world)
     = Ret [merged_record 1; merged_record 2; merged_record 5]
  /\ build_records (R := raw_runtime) [bare_json 3; bare_json 4] "secret" reject_page_2
       initial_world = (Ret [], initial_world).
Proof.
  assert (Hall : forall fuel, (3 <= fuel)%nat ->
    fst (getGithubData (R := paged_runtime) fuel page1_url "secret" read_all initial_world)
    = Ret [merged_record 1; merged_record 2; merged_record 3; merged_record 4;
           merged_record 5]
    /\ forall items w0,
         In items [[merged_json 1; merged_json 2]; [merged_json 3; merged_json 4];
                   [merged_json 5]] ->
         Forall (fun x => read_all x = Ret false) items ->
         build_records (R := paged_runtime) items "secret" read_all w0 = (Ret [], w0)).
  { apply (getGithubData_pages_in_order (R := paged_runtime) "secret" read_all page1_url
             [[merged_json 1; merged_json 2]; [merged_json 3; merged_json 4];
              [merged_json 5]]).
    - eapply walk_next; [serve_page | vm_compute; reflexivity |].
      eapply walk_next; [serve_page | vm_compute; reflexivity |].
      eapply walk_last; [serve_page | vm_compute; reflexivity].
    - repeat constructor; eexists; reflexivity.
    - repeat constructor; vm_compute; reflexivity. }
  assert (Hraw : forall fuel, (3 <= fuel)%nat ->
    fst (getGithubData (R := raw_runtime) fuel page1_url "secret" reject_page_2
           initial_world)
    = Ret [merged_record 1; merged_record 2; merged_record 5]
    /\ forall items w0,
         In items [[merged_json 1; merged_json 2]; [bare_json 3; bare_json 4];
                   [merged_json 5]] ->
         Forall (fun x => reject_page_2 x = Ret false) items ->
         build_records (R := raw_runtime) items "secret" reject_page_2 w0 = (Ret [], w0)).
  { apply (getGithubData_pages_in_order (R := raw_runtime) "secret" reject_page_2 page1_url
             [[merged_json 1; merged_json 2]; [bare_json 3; bare_json 4];
              [merged_json 5]]).
    - eapply walk_next; [serve_page | vm_compute; reflexivity |].
      eapply walk_next; [serve_page | vm_compute; reflexivity |].
      eapply walk_last; [serve_page | vm_compute; reflexivity].
    - repeat constructor; eexists; vm_compute; reflexivity.
    - repeat constructor; vm_compute; reflexivity. }
  split; [exact (proj1 (Hall 3%nat (le_n 3)))|].
  split; [exact (proj1 (Hraw 3%nat (le_n 3)))|].
  apply (proj2 (Hraw 3%nat (le_n 3))).
  - right. left. reflexivity.
  - repeat constructor.
Defined.

Lemma getGithubData_failure_exits_witness :
  exists w',
    getGithubData (R := failing_runtime) 2 page1_url "secret" read_all initial_world
    = (Abort (SysExit (-1)), w')
    /\ stderr w' = [api_error_line]
    /\ stdout w' = [].
Proof.
  apply (getGithubData_failure_exits (R := failing_runtime) "secret" read_all
           page1_url page2_url [[merged_json 1; merged_json 2]]
           [merged_record 1; merged_record 2] initial_world).
  - eapply walk_next; [serve_page | vm_compute; reflexivity |].
    eapply walk_fail; [vm_compute; reflexivity | vm_compute; discriminate].
  - repeat constructor; eexists; reflexivity.
  - repeat constructor; vm_compute; reflexivity.
  - simpl. lia.
Defined.

(** The second page of [raw_runtime] cannot be turned into records: without
    the predicate the fetch fails there, and with it the only requests sent
    for that page is the page's own. *)
Example raw_pages_need_the_predicate :
  fst (getGithubData (R := raw_runtime) 3 page1_url "secret" read_all initial_world)
  = Raise (KeyError "created_at").
Proof. vm_compute. reflexivity. Qed.

Example rejected_page_sends_no_user_request :
  map req_url
    (sent (snd (getGithubData (R := raw_runtime) 3 page1_url "secret" reject_page_2
                  initial_world)))
  = [page1_url; alice_url; alice_url; page2_url; page3_url; alice_url].
Proof. vm_compute. reflexivity. Qed.

(** With too little fuel the model stops before the last page. *)
Example two_pages_of_fuel :
  fst (getGithubData (R := paged_runtime) 2 page1_url "secret" read_all initial_world)
  = Abort OutOfFuel.
Proof. vm_compute. reflexivity. Qed.

(** The whole script on the scenario. *)
Example main_scenario :
  main (R := scenario_runtime) 2 scenario_args initial_world
  = (Ret tt,
     {| sent :=
          [ {| req_url := "https://api.github.com/repos/scylladb/scylla/pulls?state=open?sort=created_at?direction=desc";
               req_headers := headers_of "secret" |};
            {| req_url := "https://api.github.com/repos/scylladb/scylla/pulls?state=closed?sort=closed_at?direction=desc";
               req_headers := headers_of "secret" |};
            {| req_url := alice_url; req_headers := headers_of "secret" |} ];
        stdout :=
          [ "Merged Pull Requests For the entire life of the repository: 1" +:+ NL;
            average_line "merge" 3; peak_line "merge" 3; histogram_line "merge";
            bin_line 0 0; bin_line 1 0; bin_line 2 0; bin_line 3 1;
            NL +:+ "Currently Open Pull Requests: 0" +:+ NL ];
        stderr := [];
        User_cache := ∅ |}).
Proof. vm_compute. reflexivity. Qed.

(** * Further properties of the script *)

(** ** The histogram *)

(** What the inner loop does to the bins: nothing when every threshold is
    below [x], and otherwise one increment, at the first threshold that [x]
    does not exceed. *)
Lemma count_into_cases (x : Z) (keys : list Z) (bins bins' : gmap Z Z) :
  count_into x keys bins = Ret bins' ->
  (Forall (fun k => k < x) keys /\ bins' = bins)
  \/ (exists l1 k l2 c,
        keys = (l1 ++ k :: l2)%list
        /\ Forall (fun k' => k' < x) l1
        /\ x <= k
        /\ bins !! k = Some c
        /\ bins' = <[k := c + 1]> bins).
Proof.
  induction keys as [|k ks IH]; cbn [count_into].
  - intros [= <-]. left. split; [constructor | reflexivity].
  - destruct (Z.leb_spec x k) as [Hle|Hgt].
    + unfold bins_get. destruct (bins !! k) as [c|] eqn:Hk; [|discriminate].
      simpl. intros [= <-]. right. exists [], k, ks, c. by repeat split.
    + intros Hrun. destruct (IH Hrun) as [[Hall ->]|(l1 & k' & l2 & c & -> & Hl1 & Hle & Hk & ->)].
      * left. split; [by constructor | reflexivity].
      * right. exists (k :: l1), k', l2, c. repeat split; try done. by constructor.
Qed.

(** X1: a close time is counted in the first threshold that it does not
    exceed and in no other bin; when it exceeds every threshold no bin
    changes.  In particular a close time equal to a threshold falls into the
    bin of that threshold. *)
Theorem count_into_first_threshold (x : Z) (keys : list Z) (bins bins' : gmap Z Z) :
  count_into x keys bins = Ret bins' ->
  (Forall (fun k => k < x) keys /\ bins' = bins)
  \/ (exists l1 k l2 c,
        keys = (l1 ++ k :: l2)%list
        /\ Forall (fun k' => k' < x) l1
        /\ x <= k
        /\ bins !! k = Some c
        /\ bins' = <[k := c + 1]> bins).
Proof. apply count_into_cases. Qed.

Lemma count_into_first_threshold_witness :
  count_into 7 thresholds initial_bins = Ret (<[7 := 1]> initial_bins)
  /\ ((Forall (fun k => k < 7) thresholds /\ <[7 := 1]> initial_bins = initial_bins)
      \/ (exists l1 k l2 c,
            thresholds = (l1 ++ k :: l2)%list
            /\ Forall (fun k' => k' < 7) l1
            /\ 7 <= k
            /\ initial_bins !! k = Some c
            /\ <[7 := 1]> initial_bins = <[k := c + 1]> initial_bins)).
Proof.
  assert (H : count_into 7 thresholds initial_bins = Ret (<[7 := 1]> initial_bins)).
  { vm_compute. reflexivity. }
  split; [exact H|]. exact (count_into_first_threshold 7 thresholds _ _ H).
Defined.

Lemma bins_total_insert (keys : list Z) (bins : gmap Z Z) (k c : Z) :
  NoDup keys -> k ∈ keys -> bins !! k = Some c ->
  bins_total keys (<[k := c + 1]> bins) = bins_total keys bins + 1.
Proof.
  intros Hnd Hin Hk. unfold bins_total.
  induction Hnd as [|k' ks Hnotin Hnd IH]; [by apply elem_of_nil in Hin|].
  cbn [map foldr]. apply elem_of_cons in Hin as [<-|Hin].
  - rewrite lookup_insert_eq, Hk. simpl.
    assert (Hrest : map (fun k0 => default 0 (<[k := c + 1]> bins !! k0)) ks
                    = map (fun k0 => default 0 (bins !! k0)) ks).
    { apply map_ext_in. intros k0 Hk0. rewrite lookup_insert_ne; [reflexivity|].
      intros ->. apply Hnotin. by apply list_elem_of_In. }
    rewrite Hrest. lia.
  - rewrite lookup_insert_ne by (intros ->; contradiction).
    rewrite (IH Hin). lia.
Qed.

Lemma existsb_leb_false (x : Z) (keys : list Z) :
  Forall (fun k => k < x) keys -> existsb (Z.leb x) keys = false.
Proof.
  induction 1 as [|k ks Hk _ IH]; [reflexivity|].
  cbn [existsb]. rewrite IH. destruct (Z.leb_spec x k); [lia | reflexivity].
Qed.

(** One round of the counting loop: it succeeds when every key has a bin,
    keeps every key, and adds one to the total exactly when some threshold
    is at least [x]. *)
Lemma count_into_total (x : Z) (keys : list Z) (bins : gmap Z Z) :
  NoDup keys ->
  Forall (fun k => is_Some (bins !! k)) keys ->
  exists bins',
    count_into x keys bins = Ret bins'
    /\ Forall (fun k => is_Some (bins' !! k)) keys
    /\ bins_total keys bins'
       = bins_total keys bins + (if existsb (Z.leb x) keys then 1 else 0).
Proof.
  intros Hnd Hall.
  assert (Hrun : exists bins', count_into x keys bins = Ret bins').
  { clear Hnd. induction Hall as [|k ks [c Hk] _ IH]; cbn [count_into]; [by eexists|].
    destruct (x <=? k); [|exact IH]. unfold bins_get. rewrite Hk. by eexists. }
  destruct Hrun as [bins' Hrun]. exists bins'. split; [exact Hrun|].
  destruct (count_into_cases _ _ _ _ Hrun)
    as [[Hlt ->]|(l1 & k & l2 & c & Hkeys & Hl1 & Hle & Hk & ->)].
  - split; [exact Hall|]. rewrite existsb_leb_false by exact Hlt. lia.
  - assert (Hin : k ∈ keys) by (rewrite Hkeys; set_solver).
    split.
    + eapply Forall_impl; [exact Hall|]. intros k0 [c0 Hk0]. simpl.
      destruct (decide (k = k0)) as [->|Hne];
        [rewrite lookup_insert_eq | rewrite lookup_insert_ne by done]; by eexists.
    + rewrite (bins_total_insert keys bins k c Hnd Hin Hk).
      assert (Hex : existsb (Z.leb x) keys = true).
      { apply existsb_exists. exists k. split; [by apply list_elem_of_In | by apply Z.leb_le]. }
      by rewrite Hex.
Qed.

Lemma fill_bins_total (data keys : list Z) (bins : gmap Z Z) :
  NoDup keys ->
  Forall (fun k => is_Some (bins !! k)) keys ->
  exists bins',
    fill_bins data keys bins = Ret bins'
    /\ Forall (fun k => is_Some (bins' !! k)) keys
    /\ bins_total keys bins'
       = bins_total keys bins
         + Z.of_nat (length (List.filter (fun x => existsb (Z.leb x) keys) data)).
Proof.
  intros Hnd. revert bins. induction data as [|x data IH]; intros bins Hall.
  - exists bins. cbn. repeat split; [exact Hall | lia].
  - destruct (count_into_total x keys bins Hnd Hall) as (b1 & Hrun & Hall1 & Htot1).
    destruct (IH b1 Hall1) as (b2 & Hrun2 & Hall2 & Htot2).
    exists b2. cbn [fill_bins List.filter]. rewrite Hrun. cbn [obind].
    repeat split; [exact Hrun2 | exact Hall2|].
    rewrite Htot2, Htot1. destruct (existsb (Z.leb x) keys); cbn [length]; lia.
Qed.

Lemma thresholds_NoDup : NoDup thresholds.
Proof. apply (bool_decide_unpack _). vm_compute. exact I. Qed.

Lemma thresholds_present : Forall (fun k => is_Some (initial_bins !! k)) thresholds.
Proof. unfold thresholds. repeat (constructor; [by eexists|]). constructor. Qed.

Lemma existsb_thresholds (x : Z) : existsb (Z.leb x) thresholds = (x <=? 120).
Proof.
  unfold thresholds. cbn [existsb].
  repeat match goal with
  | |- context [x <=? ?k] => destruct (Z.leb_spec x k)
  end; simpl; try reflexivity; lia.
Qed.

(** X2: the counting loops of [printHistogram] never fail, and afterwards
    the counts of all bins add up to the number of close times of at most
    120 days: every such record is counted once, a record that took longer
    is in no bin. *)
Theorem fill_bins_counts_records_up_to_120 (data : list Z) :
  exists bins,
    fill_bins data (sorted_keys_of initial_bins) initial_bins = Ret bins
    /\ bins_total thresholds bins
       = Z.of_nat (length (List.filter (fun x => x <=? 120) data)).
Proof.
  rewrite sorted_keys_initial.
  destruct (fill_bins_total data thresholds initial_bins thresholds_NoDup thresholds_present)
    as (bins & Hrun & _ & Htot).
  exists bins. split; [exact Hrun|]. rewrite Htot.
  change (bins_total thresholds initial_bins) with 0.
  rewrite (List.filter_ext _ (fun x => x <=? 120)) by apply existsb_thresholds. lia.
Qed.

Lemma bins_total_nonzero (keys : list Z) (bins : gmap Z Z) :
  bins_total keys bins <> 0 ->
  Exists (fun k => exists c, bins !! k = Some c /\ c <> 0) keys.
Proof.
  unfold bins_total. induction keys as [|k ks IH]; cbn [map foldr]; [done|].
  intros Htot. destruct (bins !! k) as [c|] eqn:Hk; simpl in Htot.
  - destruct (decide (c = 0)) as [->|Hc].
    + apply Exists_cons_tl, IH. lia.
    + apply Exists_cons_hd. by exists c.
  - apply Exists_cons_tl, IH. lia.
Qed.

(** The trimming loop ends normally as soon as some bin counts something. *)
Lemma trim_keys_succeeds (bins : gmap Z Z) (keys : list Z) :
  Forall (fun k => is_Some (bins !! k)) keys ->
  Exists (fun k => exists c, bins !! k = Some c /\ c <> 0) keys ->
  exists kept, trim_keys bins keys = Ret kept.
Proof.
  apply (trim_keys_elim (fun bins keys res =>
    Forall (fun k => is_Some (bins !! k)) keys ->
    Exists (fun k => exists c, bins !! k = Some c /\ c <> 0) keys ->
    exists kept, res = Ret kept)); clear bins keys.
  - intros bins keys Hlast _ _ Hex. apply last_None in Hlast as ->.
    by apply Exists_nil in Hex.
  - intros bins keys k r Hlast Hget _ Hall _.
    apply last_Some in Hlast as [l' ->].
    apply Forall_app in Hall as [_ Hk]. apply Forall_singleton in Hk as [c Hk].
    unfold bins_get in Hget. rewrite Hk in Hget. discriminate.
  - intros bins keys k c Hlast IH Hc Hget _ Hall Hex.
    apply last_Some in Hlast as [l' ->]. rewrite removelast_last in IH |- *.
    apply Forall_app in Hall as [Hall _]. apply Exists_app in Hex as [Hex|Hex].
    + by apply IH.
    + apply Exists_cons in Hex as [(c' & Hk & Hne)|Hex]; [|by apply Exists_nil in Hex].
      unfold bins_get in Hget. rewrite Hk in Hget. inversion Hget; subst c'.
      apply Z.eqb_eq in Hc. contradiction.
  - intros bins keys k c _ _ _ _ _ _. by eexists.
Qed.

Lemma print_bins_lines (keys : list Z) (bins : gmap Z Z) (w : world) :
  Forall (fun k => is_Some (bins !! k)) keys ->
  print_bins keys bins w = (Ret tt, with_stdout w (bin_lines keys bins)).
Proof.
  intros Hall. revert w. induction Hall as [|k ks [c Hk] _ IH]; intros w.
  - unfold bin_lines. cbn. unfold mret, with_stdout. destruct w. simpl.
    by rewrite app_nil_r.
  - rewrite (print_bins_cons k ks bins c w Hk), IH, with_stdout_app.
    unfold bin_lines. cbn [map]. by rewrite Hk.
Qed.

(** X3: when every record is closed and at least one close time is at most
    120 days, [printHistogram] ends normally: it prints the average, the
    peak and the histogram header, then one line per threshold up to the
    last threshold that counts a record, and nothing for the thresholds
    after it. *)
Theorem printHistogram_prints_up_to_last_used_bin
    (closedPR : list ScyllaPR) (action : string) (w : world) (data : list Z) :
  omap timeToClose closedPR = Ret data ->
  Exists (fun x => x <= 120) data ->
  exists avg peak bins kept dropped last_key count,
    average data = Ret avg
    /\ py_max data = Ret peak
    /\ bins_of closedPR = Ret bins
    /\ thresholds = (kept ++ dropped)%list
    /\ Forall (fun k => bins !! k = Some 0) dropped
    /\ last kept = Some last_key /\ bins !! last_key = Some count /\ count <> 0
    /\ printHistogram closedPR action w
       = (Ret tt,
          with_stdout w
            ([average_line action avg; peak_line action peak; histogram_line action]
             ++ bin_lines kept bins)).
Proof.
  intros Hdata Hex.
  destruct (fill_bins_total data thresholds initial_bins thresholds_NoDup thresholds_present)
    as (bins & Hfill & Hpresent & Htot).
  assert (Hnz : bins_total thresholds bins <> 0).
  { rewrite Htot. change (bins_total thresholds initial_bins) with 0.
    rewrite (List.filter_ext _ (fun x => x <=? 120)) by apply existsb_thresholds.
    clear -Hex. induction Hex as [x l Hx|x l _ IH]; cbn [List.filter].
    - destruct (Z.leb_spec x 120); [cbn [length]; lia | lia].
    - destruct (x <=? 120); cbn [length]; lia. }
  destruct (trim_keys_succeeds bins thresholds Hpresent (bins_total_nonzero _ _ Hnz))
    as [kept Htrim].
  destruct (trim_keys_spec _ _ _ Htrim) as (dropped & Hsplit & Hzero & k & c & Hlast & Hk & Hc).
  destruct data as [|x data]; [by apply Exists_nil in Hex|].
  eexists _, _, bins, kept, dropped, k, c.
  split; [reflexivity|]. split; [reflexivity|].
  split; [unfold bins_of; rewrite Hdata, sorted_keys_initial; exact Hfill|].
  split; [exact Hsplit|]. split; [exact Hzero|].
  split; [exact Hlast|]. split; [exact Hk|]. split; [exact Hc|].
  rewrite (printHistogram_unfold _ _ _ _ Hdata), sorted_keys_initial.
  change [0; 1; 2; 3; 4; 5; 6; 7; 15; 21; 30; 60; 120] with thresholds.
  rewrite Hfill. cbn [average py_max]. cbn zeta. rewrite Htrim.
  rewrite print_bins_lines, with_stdout_app; [reflexivity|].
  rewrite Hsplit in Hpresent. by apply Forall_app in Hpresent as [? _].
Qed.

Lemma printHistogram_prints_up_to_last_used_bin_witness :
  omap timeToClose quick_prs = Ret [0; 1; 1]
  /\ Exists (fun x => x <= 120) [0; 1; 1]
  /\ exists avg peak bins kept dropped last_key count,
       average [0; 1; 1] = Ret avg
       /\ py_max [0; 1; 1] = Ret peak
       /\ bins_of quick_prs = Ret bins
       /\ thresholds = (kept ++ dropped)%list
       /\ Forall (fun k => bins !! k = Some 0) dropped
       /\ last kept = Some last_key /\ bins !! last_key = Some count /\ count <> 0
       /\ printHistogram quick_prs "merge" initial_world
          = (Ret tt,
             with_stdout initial_world
               ([average_line "merge" avg; peak_line "merge" peak; histogram_line "merge"]
                ++ bin_lines kept bins)).
Proof.
  assert (Hdata : omap timeToClose quick_prs = Ret [0; 1; 1]) by (vm_compute; reflexivity).
  assert (Hex : Exists (fun x => x <= 120) [0; 1; 1]) by (apply Exists_cons_hd; lia).
  split; [exact Hdata|]. split; [exact Hex|].
  exact (printHistogram_prints_up_to_last_used_bin quick_prs "merge" initial_world
           [0; 1; 1] Hdata Hex).
Defined.

Lemma fold_left_max_spec (l : list Z) (x : Z) :
  (fold_left Z.max l x = x \/ In (fold_left Z.max l x) l)
  /\ x <= fold_left Z.max l x
  /\ Forall (fun y => y <= fold_left Z.max l x) l.
Proof.
  revert x. induction l as [|y l IH]; intros x; cbn [fold_left].
  - repeat split; [by left | lia | constructor].
  - destruct (IH (Z.max x y)) as (Hin & Hle & Hall).
    repeat split; [|lia|constructor; [lia | exact Hall]].
    destruct Hin as [Heq|Hin]; [|right; by right].
    rewrite Heq. destruct (Z.max_spec x y) as [[_ ->]|[_ ->]]; [right; by left | by left].
Qed.

(** X4: the peak that [printHistogram] reports is the largest close time:
    it is one of the close times and none exceeds it; only an empty list has
    no peak. *)
Theorem py_max_is_the_largest (data : list Z) :
  match py_max data with
  | Ret peak => In peak data /\ Forall (fun x => x <= peak) data
  | Abort r => r = Exn ValueError /\ data = []
  end.
Proof.
  destruct data as [|x data]; cbn [py_max]; [by split|].
  destruct (fold_left_max_spec data x) as ([Heq|Hin] & Hle & Hall).
  - split; [left; by rewrite Heq | by constructor].
  - split; [by right | by constructor].
Qed.

(** ** Classification of the closed pull requests *)

Lemma closed_one_bucket (p : ScyllaPR) :
  isOpen p = false ->
  truth (isAbandoned p) = negb (truth (isMerged p)).
Proof.
  unfold isOpen, isAbandoned, isMerged.
  destruct (closed_at p), (merged_at p); simpl; intros H; done.
Qed.

Lemma classify_closed (closedPR abandonedPR mergedPR : list ScyllaPR) :
  Forall (fun p => isOpen p = false) closedPR ->
  classify closedPR abandonedPR mergedPR
  = Ret ((abandonedPR ++ List.filter (fun p => truth (isAbandoned p)) closedPR)%list,
         (mergedPR ++ List.filter (fun p => truth (isMerged p)) closedPR)%list).
Proof.
  intros Hclosed. revert abandonedPR mergedPR.
  induction Hclosed as [|p l Hp _ IH]; intros a m; cbn [classify List.filter].
  - by rewrite !app_nil_r.
  - rewrite Hp, (closed_one_bucket p Hp).
    destruct (truth (isMerged p)); cbn [negb]; rewrite IH, <- app_assoc; reflexivity.
Qed.

(** X5: on closed records the loop of the script splits the list in two:
    the abandoned bucket holds the records that are closed and not merged,
    the merged bucket the merged ones, both in the order of the input, and
    every record is in exactly one of them. *)
Theorem classify_splits_closed_records (closedPR : list ScyllaPR) :
  Forall (fun p => isOpen p = false) closedPR ->
  classify closedPR [] []
  = Ret (List.filter (fun p => truth (isAbandoned p)) closedPR,
         List.filter (fun p => truth (isMerged p)) closedPR)
  /\ Forall (fun p => truth (isAbandoned p) = negb (truth (isMerged p))) closedPR
  /\ (length (List.filter (fun p => truth (isAbandoned p)) closedPR)
      + length (List.filter (fun p => truth (isMerged p)) closedPR)
      = length closedPR)%nat.
Proof.
  intros Hclosed. split; [by rewrite classify_closed|].
  assert (Hone : Forall (fun p => truth (isAbandoned p) = negb (truth (isMerged p))) closedPR).
  { eapply Forall_impl; [exact Hclosed|]. intros p Hp. by apply closed_one_bucket. }
  split; [exact Hone|].
  clear Hclosed. induction Hone as [|p l Hp _ IH]; [reflexivity|].
  cbn [List.filter]. rewrite Hp. destruct (truth (isMerged p)); cbn [negb length]; lia.
Qed.

Lemma classify_splits_closed_records_witness :
  Forall (fun p => isOpen p = false) [merged_record 1; merged_record 2]
  /\ classify [merged_record 1; merged_record 2] [] []
     = Ret ([], [merged_record 1; merged_record 2]).
Proof.
  assert (H : Forall (fun p => isOpen p = false) [merged_record 1; merged_record 2]).
  { repeat constructor. }
  split; [exact H|].
  exact (proj1 (classify_splits_closed_records [merged_record 1; merged_record 2] H)).
Defined.

(** X6: a record without a closing date anywhere in the closed list stops
    the classification with the exception of the script, whatever the
    buckets hold by then. *)
Theorem classify_rejects_open_record (closedPR abandonedPR mergedPR : list ScyllaPR) :
  Exists (fun p => isOpen p = true) closedPR ->
  classify closedPR abandonedPR mergedPR = Raise (Exception "Not expecting an open PR").
Proof.
  intros Hopen. revert abandonedPR mergedPR.
  induction Hopen as [p l Hp|p l _ IH]; intros a m; cbn [classify].
  - by rewrite Hp.
  - destruct (isOpen p); [reflexivity|].
    destruct (truth (isAbandoned p)); [apply IH|].
    destruct (truth (isMerged p)); apply IH.
Qed.

Lemma classify_rejects_open_record_witness :
  Exists (fun p => isOpen p = true) [merged_record 1; merged_unclosed]
  /\ classify [merged_record 1; merged_unclosed] [] []
     = Raise (Exception "Not expecting an open PR").
Proof.
  assert (H : Exists (fun p => isOpen p = true) [merged_record 1; merged_unclosed]).
  { apply Exists_cons_tl, Exists_cons_hd. reflexivity. }
  split; [exact H|].
  exact (classify_rejects_open_record [merged_record 1; merged_unclosed] [] [] H).
Defined.

(** ** The list of pull requests needing attention *)

Section Attention.
Context {R : Runtime}.

Lemma insert_desc_Permutation (x : ScyllaPR) (l : list ScyllaPR) :
  Permutation (x :: l) (insert_desc x l).
Proof.
  induction l as [|y l IH]; cbn [insert_desc]; [reflexivity|].
  destruct (openFor x <? openFor y); [|reflexivity].
  rewrite Permutation_swap. by constructor.
Qed.

Lemma insert_desc_Sorted (x : ScyllaPR) (l : list ScyllaPR) :
  Sorted (fun a b => openFor b <= openFor a) l ->
  Sorted (fun a b => openFor b <= openFor a) (insert_desc x l).
Proof.
  induction 1 as [|y l Hl IH Hhd]; cbn [insert_desc].
  - repeat constructor.
  - destruct (Z.ltb_spec (openFor x) (openFor y)) as [Hlt|Hge].
    + constructor; [exact IH|].
      destruct l as [|z l]; cbn [insert_desc] in *.
      * constructor. lia.
      * destruct (openFor x <? openFor z); constructor; [by inversion Hhd | lia].
    + constructor; [by constructor | constructor; lia].
Qed.

Lemma insert_desc_filter (k : Z) (x : ScyllaPR) (l : list ScyllaPR) :
  List.filter (fun p => openFor p =? k) (insert_desc x l)
  = List.filter (fun p => openFor p =? k) (x :: l).
Proof.
  induction l as [|y l IH]; cbn [insert_desc]; [reflexivity|].
  destruct (Z.ltb_spec (openFor x) (openFor y)) as [Hlt|Hge]; [|reflexivity].
  cbn [List.filter] in *. rewrite IH.
  destruct (Z.eqb_spec (openFor x) k), (Z.eqb_spec (openFor y) k); try reflexivity. lia.
Qed.

(** X7: the sort of the open pull requests rearranges the list without
    losing or repeating a record, puts the longest-open first, and keeps the
    records that are open for the same number of days in their order. *)
Theorem sort_by_openFor_desc_stable (l : list ScyllaPR) :
  Permutation l (sort_by_openFor_desc l)
  /\ Sorted (fun a b => openFor b <= openFor a) (sort_by_openFor_desc l)
  /\ forall k,
       List.filter (fun p => openFor p =? k) (sort_by_openFor_desc l)
       = List.filter (fun p => openFor p =? k) l.
Proof.
  unfold sort_by_openFor_desc. induction l as [|x l (Hperm & Hsorted & Hstable)].
  - repeat split; constructor.
  - cbn [foldr]. repeat split.
    + rewrite <- insert_desc_Permutation. by constructor.
    + by apply insert_desc_Sorted.
    + intros k. rewrite insert_desc_filter. cbn [List.filter]. by rewrite Hstable.
Qed.

Lemma needsAttention_openFor (p : ScyllaPR) (days : Z) (limit : date) :
  date_sub_days today days = Ret limit ->
  needsAttention p days = Ret (isOpen p && (days <? openFor p)).
Proof.
  unfold needsAttention, date_sub_days, openFor, days_between, date_gt.
  destruct (_ && _); [|discriminate]. intros [= <-].
  destruct (isOpen p); [|reflexivity]. simpl. f_equal.
  destruct (Z.ltb_spec (created_at p) (today - days)), (Z.ltb_spec days (today - created_at p));
    try reflexivity; lia.
Qed.

(** X8: as long as [today - days] is a date, a record needs attention
    exactly when it is open and has been open for more than [days] days, the
    number that [openFor] gives and that the report prints. *)
Theorem needsAttention_is_open_longer_than (p : ScyllaPR) (days : Z) (limit : date) :
  date_sub_days today days = Ret limit ->
  needsAttention p days = Ret (isOpen p && (days <? openFor p)).
Proof. apply needsAttention_openFor. Qed.

(** X9: the texts printed under the attention header are those of the open
    records that are open for more than [attDay] days, one per record, in
    the order of the list; a closed record is never among them. *)
Theorem attention_texts_are_the_long_open (openPR : list ScyllaPR) (attDay : Z)
    (limit : date) :
  date_sub_days today attDay = Ret limit ->
  attention_texts openPR attDay
  = omap ScyllaPR_str (List.filter (fun p => isOpen p && (attDay <? openFor p)) openPR).
Proof.
  intros Hlimit. induction openPR as [|p l IH]; [reflexivity|].
  cbn [attention_texts List.filter].
  rewrite (needsAttention_openFor p attDay limit Hlimit). cbn [obind].
  destruct (isOpen p && (attDay <? openFor p)); [|exact IH].
  cbn [omap]. by rewrite IH.
Qed.

End Attention.

Lemma needsAttention_is_open_longer_than_witness :
  date_sub_days (today (Runtime := scenario_runtime)) 15 = Ret (ymd2ord 2024 2 15)
  /\ needsAttention (R := scenario_runtime) merged_unclosed 15 = Ret true.
Proof.
  assert (H : date_sub_days (today (Runtime := scenario_runtime)) 15 = Ret (ymd2ord 2024 2 15)).
  { vm_compute. reflexivity. }
  split; [exact H|].
  exact (needsAttention_is_open_longer_than (R := scenario_runtime) merged_unclosed 15 _ H).
Defined.

Lemma attention_texts_are_the_long_open_witness :
  date_sub_days (today (Runtime := scenario_runtime)) 15 = Ret (ymd2ord 2024 2 15)
  /\ attention_texts (R := scenario_runtime) [merged_record 1; merged_unclosed] 15
     = omap (ScyllaPR_str (R := scenario_runtime)) [merged_unclosed].
Proof.
  assert (H : date_sub_days (today (Runtime := scenario_runtime)) 15 = Ret (ymd2ord 2024 2 15)).
  { vm_compute. reflexivity. }
  split; [exact H|].
  exact (attention_texts_are_the_long_open (R := scenario_runtime)
           [merged_record 1; merged_unclosed] 15 _ H).
Defined.

(** ** Building a record *)

Lemma mbind_Ret_inv {A B : Type} (m : M A) (f : A -> M B) (w w' : world) (b : B) :
  mbind m f w = (Ret b, w') ->
  exists a w1, m w = (Ret a, w1) /\ f a w1 = (Ret b, w').
Proof.
  unfold mbind. destruct (m w) as [[a|r] w1]; [|discriminate]. intros H. by exists a, w1.
Qed.

Lemma lift_Ret_inv {A : Type} (o : outcome A) (w w' : world) (a : A) :
  lift o w = (Ret a, w') -> o = Ret a /\ w' = w.
Proof. unfold lift. intros [= -> ->]. by split. Qed.

Lemma none_on_TypeError_inv {A : Type} (o : outcome A) (x : option A) :
  none_on_TypeError o = Ret x ->
  match x with
  | Some a => o = Ret a
  | None => o = Raise TypeError
  end.
Proof.
  destruct o as [a|[[]| |]]; simpl; intros H; try discriminate; by inversion H.
Qed.

Section Records.
Context {R : Runtime}.

(** The optional date that [ScyllaPR] stores for a field of an object. *)
Lemma optional_date_inv (fields : list (string * json)) (key : string) (d : option date) :
  none_on_TypeError (let? v := subscript (JObj fields) key in parse v) = Ret d ->
  exists v,
    subscript (JObj fields) key = Ret v
    /\ d = match v with
           | JStr s => parse_str s
           | _ => None
           end.
Proof.
  intros H. apply none_on_TypeError_inv in H.
  destruct (subscript (JObj fields) key) as [v|r] eqn:Hsub; cbn [obind] in H.
  - exists v. split; [reflexivity|]. unfold parse in H.
    destruct v as [| | |s| |]; try (destruct d; [discriminate | reflexivity]).
    destruct (parse_str s) as [d'|]; destruct d; try discriminate; by inversion H.
  - cbn [subscript] in Hsub. destruct (assoc_get key fields); [discriminate|].
    inversion Hsub; subst r. destruct d; discriminate.
Qed.

(** X10: a record that [ScyllaPR] builds carries what the object holds: the
    creation date is the parsed [created_at], which is a string; a closing
    or merge date is unset exactly when its field is present and is not a
    string (null, as the API writes it), so the record is open exactly then;
    title and URL are taken as they are. *)
Theorem ScyllaPR_init_fields (j : json) (tok : string) (w w' : world) (p : ScyllaPR) :
  ScyllaPR_init j tok w = (Ret p, w') ->
  token p = tok
  /\ (exists s, subscript j "created_at" = Ret (JStr s)
                /\ parse_str s = Some (created_at p))
  /\ subscript j "html_url" = Ret (url p)
  /\ subscript j "title" = Ret (title p)
  /\ (exists v, subscript j "closed_at" = Ret v
                /\ closed_at p = match v with JStr s => parse_str s | _ => None end
                /\ (isOpen p = true <-> forall s, v <> JStr s))
  /\ (exists v, subscript j "merged_at" = Ret v
                /\ merged_at p = match v with JStr s => parse_str s | _ => None end).
Proof.
  unfold ScyllaPR_init. intros H.
  apply mbind_Ret_inv in H as (created & w1 & Hc & H). apply lift_Ret_inv in Hc as [Hc ->].
  destruct j as [| | | | |fields]; try discriminate.
  apply mbind_Ret_inv in H as (html & w1 & Hu & H). apply lift_Ret_inv in Hu as [Hu ->].
  apply mbind_Ret_inv in H as (closed & w1 & Hcl & H). apply lift_Ret_inv in Hcl as [Hcl ->].
  apply mbind_Ret_inv in H as (merged & w1 & Hm & H). apply lift_Ret_inv in Hm as [Hm ->].
  apply mbind_Ret_inv in H as (ttl & w1 & Ht & H). apply lift_Ret_inv in Ht as [Ht ->].
  apply mbind_Ret_inv in H as (uurl & w1 & Huu & H). apply lift_Ret_inv in Huu as [Huu ->].
  apply mbind_Ret_inv in H as (usr & w1 & _ & H).
  apply mbind_Ret_inv in H as (rs & w2 & _ & H).
  apply mbind_Ret_inv in H as (revs & w3 & _ & H).
  unfold mret in H. inversion H; subst p w'. cbn [token created_at url title closed_at merged_at].
  split; [reflexivity|]. split.
  { destruct (subscript (JObj fields) "created_at") as [v|] eqn:Hv; [|discriminate].
    cbn [obind] in Hc.
    unfold parse in Hc. destruct v as [| | |s| |]; try discriminate.
    exists s. split; [reflexivity|]. destruct (parse_str s); [by inversion Hc | discriminate]. }
  split; [exact Hu|]. split; [exact Ht|]. split.
  - destruct (optional_date_inv _ _ _ Hcl) as (v & Hv & Hd). exists v.
    split; [exact Hv|]. split; [exact Hd|].
    unfold isOpen. cbn [closed_at]. rewrite Hd. split.
    + intros Hopen s ->. destruct (parse_str s) eqn:Hs; [discriminate|].
      rewrite Hv in Hcl. cbn [obind parse] in Hcl. rewrite Hs in Hcl. discriminate.
    + intros Hns. destruct v; try reflexivity. by destruct (Hns s).
  - destruct (optional_date_inv _ _ _ Hm) as (v & Hv & Hd). by exists v.
Qed.

(** X11: only a [TypeError] is absorbed when the closing date is read.  When
    the creation date and the URL are fine and reading [closed_at] fails in
    another way (the key is missing, the string is no date), [ScyllaPR]
    raises that error and nothing has been requested yet. *)
Theorem ScyllaPR_init_closed_at_error
    (j : json) (tok : string) (w : world) (s : string) (d : date) (h : json) (r : abort) :
  subscript j "created_at" = Ret (JStr s) ->
  parse_str s = Some d ->
  subscript j "html_url" = Ret h ->
  (let? v := subscript j "closed_at" in parse v) = Abort r ->
  r <> Exn TypeError ->
  ScyllaPR_init j tok w = (Abort r, w).
Proof.
  intros Hc Hs Hh Hcl Hr. unfold ScyllaPR_init.
  rewrite Hc. cbn [obind parse]. rewrite Hs, mbind_lift_Ret, Hh, mbind_lift_Ret, Hcl.
  unfold mbind, lift, none_on_TypeError.
  destruct r as [[]| |]; try reflexivity. contradiction.
Qed.

End Records.

Lemma ScyllaPR_init_fields_witness :
  ScyllaPR_init (R := scenario_runtime) merged_unclosed_json "secret" initial_world
  = (Ret merged_unclosed,
     log_request {| req_url := alice_url; req_headers := headers_of "secret" |}
       initial_world)
  /\ subscript merged_unclosed_json "closed_at" = Ret JNull
  /\ isOpen merged_unclosed = true.
Proof.
  assert (H : ScyllaPR_init (R := scenario_runtime) merged_unclosed_json "secret" initial_world
              = (Ret merged_unclosed,
                 log_request {| req_url := alice_url; req_headers := headers_of "secret" |}
                   initial_world)).
  { vm_compute. reflexivity. }
  split; [exact H|]. split; [reflexivity|].
  destruct (ScyllaPR_init_fields (R := scenario_runtime) _ _ _ _ _ H)
    as (_ & _ & _ & _ & (v & Hv & _ & Hopen) & _).
  apply Hopen. intros s ->. discriminate Hv.
Defined.

Lemma ScyllaPR_init_closed_at_error_witness :
  ScyllaPR_init (R := scenario_runtime)
    (JObj [("created_at", JStr "2024-01-01T09:00:00Z"); ("html_url", JStr "u")])
    "secret" initial_world
  = (Raise (KeyError "closed_at"), initial_world).
Proof.
  apply (ScyllaPR_init_closed_at_error (R := scenario_runtime)
           _ "secret" initial_world "2024-01-01T09:00:00Z" (ymd2ord 2024 1 1) (JStr "u"));
    [reflexivity | vm_compute; reflexivity | reflexivity | reflexivity | discriminate].
Defined.

(** ** Display *)

Section Display.
Context {R : Runtime}.

(** X12: the text of a record can fail only where the author's name fails.
    Otherwise it is the author, title and URL lines followed by one line
    that gives the age for a record without closing date and, for a closed
    one, both dates and the close time. *)
Theorem ScyllaPR_str_text (p : ScyllaPR) :
  ScyllaPR_str p
  = let? author := User_str (user p) in
    Ret (header_text author p +:+ dates_text p).
Proof.
  unfold ScyllaPR_str, header_text, dates_text, isOpen, timeToClose.
  destruct (User_str (user p)) as [author|r]; [|reflexivity]. cbn [obind].
  unfold py_format. eval_scan.
  destruct (closed_at p) as [c|]; cbn -[isoformat]; rewrite !append_empty_r; reflexivity.
Qed.


(** X14: with a non-zero period whose start [today - days] is a date, the
    predicate of the script keeps a closed pull request exactly when its
    closing date is strictly after [today - days]: one closed on that very
    day is left out. *)
Theorem shouldIncludePR_window
    (args : Args) (data : json) (days : Z) (limit closed : date) (s : string) :
  period args = Some days ->
  days <> 0 ->
  date_sub_days today days = Ret limit ->
  subscript data "closed_at" = Ret (JStr s) ->
  parse_str s = Some closed ->
  shouldIncludePR args data = Ret (today - days <? closed).
Proof.
  intros Hp Hd Hlimit Hsub Hparse. unfold shouldIncludePR.
  rewrite Hp. cbn [days_truthy]. apply Z.eqb_neq in Hd. rewrite Hd. cbn [negb].
  rewrite Hlimit, Hsub. cbn [obind parse]. rewrite Hparse. cbn [obind].
  unfold date_lt. unfold date_sub_days in Hlimit.
  destruct (_ && _); [|discriminate]. by inversion Hlimit.
Qed.

End Display.

Lemma shouldIncludePR_window_witness :
  shouldIncludePR (R := scenario_runtime)
    {| repo := "scylla"; period := Some 57; arg_token := "secret"; open_only := false |}
    scenario_pr
  = Ret false.
Proof.
  apply (shouldIncludePR_window (R := scenario_runtime) _ scenario_pr 57
           (ymd2ord 2024 1 4) (ymd2ord 2024 1 4) "2024-01-04T17:30:00Z");
    [reflexivity | discriminate | vm_compute; reflexivity | reflexivity
    | vm_compute; reflexivity].
Defined.

(** ** Requests and effects of the fetch *)

Section Effects.
Context {R : Runtime}.

Lemma User_init_uncached (v : json) (tok : string) (w w' : world) (usr : User) :
  User_cache w = ∅ ->
  User_init v tok w = (Ret usr, w') ->
  exists u, v = JStr u /\ w' = log_request (profile_request tok u) w.
Proof.
  intros Hcache. unfold User_init. rewrite auth_headers_eq, mbind_lift_Ret.
  destruct v as [| | |u| |]; try discriminate.
  rewrite Hcache, lookup_empty. unfold mbind, requests_get.
  destruct (server _) as [resp|]; [|discriminate].
  unfold lift, resp_json. destruct (body resp); [|discriminate].
  intros [= _ <-]. by exists u.
Qed.

Lemma reviewers_uncached (rs : list json) (tok : string) (w w' : world) (revs : list User) :
  User_cache w = ∅ ->
  mmap (fun x => let* xu := lift (subscript x "url") in User_init xu tok) rs w
  = (Ret revs, w') ->
  exists urls,
    omap (fun x => subscript x "url") rs = Ret (map JStr urls)
    /\ length revs = length urls
    /\ sent w' = (sent w ++ map (profile_request tok) urls)%list
    /\ User_cache w' = ∅.
Proof.
  revert w revs. induction rs as [|x rs IH]; intros w revs Hcache; cbn [mmap omap].
  - intros [= <- <-]. exists []. cbn. by rewrite app_nil_r.
  - intros H. apply mbind_Ret_inv in H as (usr & w1 & Husr & H).
    apply mbind_Ret_inv in Husr as (xu & w0 & Hxu & Husr).
    apply lift_Ret_inv in Hxu as [Hxu ->].
    apply (User_init_uncached _ _ _ _ _ Hcache) in Husr as (u & -> & ->).
    apply mbind_Ret_inv in H as (revs' & w2 & Hrest & H).
    unfold mret in H. inversion H; subst revs w'.
    destruct (IH (log_request (profile_request tok u) w) revs' Hcache Hrest)
      as (urls & Hurls & Hlen & Hsent & Hc).
    exists (u :: urls). rewrite Hxu, Hurls. cbn [obind map length].
    repeat split; [by rewrite Hlen | | exact Hc].
    rewrite Hsent. cbn [log_request sent]. by rewrite <- app_assoc.
Qed.

(** X15: while the cache is empty, building a record sends one profile
    request for the author and one for each requested reviewer, in that
    order; a user that occurs more than once is requested each time. *)
Theorem ScyllaPR_init_requests (j : json) (tok : string) (w w' : world) (p : ScyllaPR) :
  User_cache w = ∅ ->
  ScyllaPR_init j tok w = (Ret p, w') ->
  exists author rs urls,
    (let? u := subscript j "user" in subscript u "url") = Ret (JStr author)
    /\ (let? r := subscript j "requested_reviewers" in py_iter r) = Ret rs
    /\ omap (fun x => subscript x "url") rs = Ret (map JStr urls)
    /\ length (reviewers p) = length urls
    /\ sent w' = (sent w ++ map (profile_request tok) (author :: urls))%list.
Proof.
  intros Hcache. unfold ScyllaPR_init. intros H.
  apply mbind_Ret_inv in H as (created & w1 & Hc & H). apply lift_Ret_inv in Hc as [_ ->].
  apply mbind_Ret_inv in H as (html & w1 & Hu & H). apply lift_Ret_inv in Hu as [_ ->].
  apply mbind_Ret_inv in H as (closed & w1 & Hcl & H). apply lift_Ret_inv in Hcl as [_ ->].
  apply mbind_Ret_inv in H as (merged & w1 & Hm & H). apply lift_Ret_inv in Hm as [_ ->].
  apply mbind_Ret_inv in H as (ttl & w1 & Ht & H). apply lift_Ret_inv in Ht as [_ ->].
  apply mbind_Ret_inv in H as (uurl & w1 & Huu & H). apply lift_Ret_inv in Huu as [Huu ->].
  apply mbind_Ret_inv in H as (usr & w1 & Husr & H).
  apply (User_init_uncached _ _ _ _ _ Hcache) in Husr as (author & -> & ->).
  apply mbind_Ret_inv in H as (rs & w2 & Hrs & H). apply lift_Ret_inv in Hrs as [Hrs ->].
  apply mbind_Ret_inv in H as (revs & w3 & Hrevs & H).
  unfold mret in H. inversion H; subst p w'. cbn [reviewers].
  destruct (reviewers_uncached rs tok (log_request (profile_request tok author) w) w3 revs
              Hcache Hrevs) as (urls & Hurls & Hlen & Hsent & _).
  exists author, rs, urls. repeat split; try done.
  rewrite Hsent. cbn [log_request sent map]. by rewrite <- app_assoc.
Qed.

(** The fetching computations leave the cache and both streams alone. *)
Lemma fetch_only_quiet {A : Type} (m : M A) (w : world) :
  fetch_only m ->
  User_cache (snd (m w)) = User_cache w
  /\ stdout (snd (m w)) = stdout w
  /\ stderr (snd (m w)) = stderr w.
Proof. intros Hm. by destruct (Hm w w eq_refl) as (_ & ? & ? & ?). Qed.

Lemma fetch_only_build_records (items : list json) (tok : string)
    (add_criteria : json -> outcome bool) :
  fetch_only (build_records items tok add_criteria).
Proof.
  induction items as [|x items IH]; cbn [build_records]; [apply fetch_only_mret|].
  apply fetch_only_mbind; [apply fetch_only_lift | intros keep].
  destruct keep; [|exact IH].
  apply fetch_only_mbind; [apply fetch_only_ScyllaPR_init | intros p].
  apply fetch_only_mbind; [exact IH | intros ps; apply fetch_only_mret].
Qed.

Lemma fetch_pages_effects (fuel : nat) (u : string) (hd : list (string * string))
    (tok : string) (add_criteria : json -> outcome bool) (acc : list ScyllaPR)
    (w w' : world) (o : outcome (list ScyllaPR)) :
  fetch_pages fuel u hd tok add_criteria acc w = (o, w') ->
  User_cache w' = User_cache w
  /\ stdout w' = stdout w
  /\ (stderr w' = stderr w
      \/ (o = Abort (SysExit (-1)) /\ stderr w' = (stderr w ++ [api_error_line])%list)).
Proof.
  revert u acc w. induction fuel as [|fuel IH]; intros u acc w; cbn [fetch_pages].
  - intros [= <- <-]. repeat split; by left.
  - unfold mbind at 1.
    destruct (fetch_only_quiet (requests_get u hd) w (fetch_only_requests_get u hd))
      as (G1 & G2 & G3).
    destruct (requests_get u hd w) as [[resp|r] w1]; cbn [fst snd] in *.
    2: { intros [= <- <-]. repeat split; try done. by left. }
    destruct (negb (status_code resp =? 200)).
    { cbn. intros [= <- <-]. cbn. rewrite G1, G2, G3. repeat split; try done.
      right. by split. }
    unfold mbind at 1. unfold lift at 1.
    destruct (resp_json resp) as [j|r].
    2: { intros [= <- <-]. repeat split; try done. by left. }
    unfold mbind at 1. unfold lift at 1.
    destruct (py_iter j) as [items|r].
    2: { intros [= <- <-]. repeat split; try done. by left. }
    unfold mbind at 1.
    destruct (fetch_only_quiet (build_records items tok add_criteria) w1
                (fetch_only_build_records items tok add_criteria)) as (B1 & B2 & B3).
    destruct (build_records items tok add_criteria w1) as [[new|r] w2]; cbn [fst snd] in *.
    2: { intros [= <- <-]. repeat split; try congruence. left. congruence. }
    cbn zeta. destruct (links resp !! "next") as [next_url|].
    + intros Hrest. destruct (IH _ _ _ Hrest) as (I1 & I2 & I3).
      repeat split; [congruence | congruence|].
      destruct I3 as [I3|[I3 I4]]; [left; congruence | right; split; [exact I3 | congruence]].
    + intros [= <- <-]. repeat split; [congruence | congruence | left; congruence].
Qed.

Lemma getGithubData_run (fuel : nat) (u tok : string)
    (add_criteria : json -> outcome bool) (w w' : world) (o : outcome (list ScyllaPR)) :
  getGithubData fuel u tok add_criteria w = (o, w') ->
  User_cache w' = User_cache w
  /\ stdout w' = stdout w
  /\ (stderr w' = stderr w
      \/ (o = Abort (SysExit (-1)) /\ stderr w' = (stderr w ++ [api_error_line])%list)).
Proof.
  unfold getGithubData. cbn zeta. rewrite auth_headers_eq, mbind_lift_Ret.
  apply fetch_pages_effects.
Qed.

(** X16: whatever the server answers and however the fetch ends,
    [getGithubData] writes nothing to standard output and leaves
    [User.cache] as it was; the diagnostic stream is either untouched or
    longer by the one error line, and then the fetch has exited with
    code -1. *)
Theorem getGithubData_effects (fuel : nat) (u tok : string)
    (add_criteria : json -> outcome bool) (w w' : world) (o : outcome (list ScyllaPR)) :
  getGithubData fuel u tok add_criteria w = (o, w') ->
  User_cache w' = User_cache w
  /\ stdout w' = stdout w
  /\ (stderr w' = stderr w
      \/ (o = Abort (SysExit (-1)) /\ stderr w' = (stderr w ++ [api_error_line])%list)).
Proof. apply getGithubData_run. Qed.

End Effects.

Lemma ScyllaPR_init_requests_witness :
  exists p w',
    ScyllaPR_init (R := scenario_runtime) reviewed_json "secret" initial_world = (Ret p, w')
    /\ length (reviewers p) = 2%nat
    /\ sent w' = map (profile_request "secret") [alice_url; alice_url; alice_url].
Proof.
  destruct (ScyllaPR_init (R := scenario_runtime) reviewed_json "secret" initial_world)
    as [o w'] eqn:Hrun.
  assert (Ho : o = fst (ScyllaPR_init (R := scenario_runtime) reviewed_json "secret"
                          initial_world)) by (by rewrite Hrun).
  vm_compute in Ho.
  match type of Ho with _ = Ret ?p => exists p, w' end.
  subst o. split; [reflexivity|].
  destruct (ScyllaPR_init_requests (R := scenario_runtime) reviewed_json "secret"
              initial_world w' _ eq_refl Hrun) as (author & rs & urls & Ha & Hrs & Hurls & Hlen & Hsent).
  vm_compute in Ha. inversion Ha; subst author.
  vm_compute in Hrs. inversion Hrs; subst rs.
  vm_compute in Hurls.
  destruct urls as [|u1 [|u2 [|u3 urls]]]; try discriminate.
  inversion Hurls; subst u1 u2.
  split; [exact Hlen | exact Hsent].
Defined.

Lemma getGithubData_effects_witness :
  exists w',
    getGithubData (R := failing_runtime) 5 page1_url "secret" read_all initial_world
    = (Abort (SysExit (-1)), w')
    /\ User_cache w' = ∅ /\ stdout w' = [] /\ stderr w' = [api_error_line].
Proof.
  destruct (getGithubData (R := failing_runtime) 5 page1_url "secret" read_all initial_world)
    as [o w'] eqn:Hrun.
  assert (Ho : o = fst (getGithubData (R := failing_runtime) 5 page1_url "secret" read_all
                          initial_world)) by (by rewrite Hrun).
  vm_compute in Ho. subst o. exists w'. split; [reflexivity|].
  destruct (getGithubData_effects (R := failing_runtime) _ _ _ _ _ _ _ Hrun)
    as (Hc & Hout & [Herr|[_ Herr]]).
  - exfalso. assert (Hw : stderr w' = stderr (snd (getGithubData (R := failing_runtime) 5
               page1_url "secret" read_all initial_world))) by (by rewrite Hrun).
    rewrite Herr in Hw. vm_compute in Hw. discriminate.
  - by repeat split.
Defined.

(** ** The whole script *)

Section Whole.
Context {R : Runtime}.

Lemma keeps_cache_mret {A : Type} (a : A) : keeps_cache (mret a).
Proof. intros w. reflexivity. Qed.

Lemma keeps_cache_lift {A : Type} (o : outcome A) : keeps_cache (lift o).
Proof. intros w. reflexivity. Qed.

Lemma keeps_cache_print (s : string) : keeps_cache (print s).
Proof. intros w. reflexivity. Qed.

Lemma keeps_cache_mbind {A B : Type} (m : M A) (f : A -> M B) :
  keeps_cache m -> (forall a, keeps_cache (f a)) -> keeps_cache (mbind m f).
Proof.
  intros Hm Hf w. unfold mbind. specialize (Hm w).
  destruct (m w) as [[a|r] w1]; cbn [snd] in *; [|exact Hm].
  by rewrite (Hf a w1).
Qed.

Lemma keeps_cache_print_bins (keys : list Z) (bins : gmap Z Z) :
  keeps_cache (print_bins keys bins).
Proof.
  induction keys as [|k ks IH]; cbn [print_bins]; [apply keeps_cache_mret|].
  apply keeps_cache_mbind; [apply keeps_cache_lift | intros c].
  apply keeps_cache_mbind; [apply keeps_cache_lift | intros line].
  apply keeps_cache_mbind; [apply keeps_cache_print | intros _; exact IH].
Qed.

Lemma keeps_cache_print_all (l : list string) : keeps_cache (print_all l).
Proof.
  induction l as [|x l IH]; cbn [print_all]; [apply keeps_cache_mret|].
  apply keeps_cache_mbind; [apply keeps_cache_print | intros _; exact IH].
Qed.

Lemma keeps_cache_printHistogram (closedPR : list ScyllaPR) (action : string) :
  keeps_cache (printHistogram closedPR action).
Proof.
  unfold printHistogram. cbn zeta.
  repeat (apply keeps_cache_mbind;
          [first [apply keeps_cache_lift | apply keeps_cache_print] | intros ?]).
  apply keeps_cache_print_bins.
Qed.

Lemma keeps_cache_printStats (days : option Z) (openPR : list ScyllaPR)
    (abandonedPR mergedPR : option (list ScyllaPR)) :
  keeps_cache (printStats days openPR abandonedPR mergedPR).
Proof.
  unfold printStats.
  apply keeps_cache_mbind.
  { destruct (days_truthy days); [apply keeps_cache_lift | apply keeps_cache_mret]. }
  intros period.
  apply keeps_cache_mbind.
  { destruct (bucket_truthy mergedPR); [|apply keeps_cache_mret].
    apply keeps_cache_mbind; [apply keeps_cache_lift | intros l].
    apply keeps_cache_mbind; [apply keeps_cache_print | intros _].
    apply keeps_cache_printHistogram. }
  intros _.
  apply keeps_cache_mbind.
  { destruct (bucket_truthy abandonedPR); [|apply keeps_cache_mret].
    apply keeps_cache_mbind; [apply keeps_cache_lift | intros l].
    apply keeps_cache_mbind; [apply keeps_cache_print | intros _].
    apply keeps_cache_printHistogram. }
  intros _.
  apply keeps_cache_mbind; [apply keeps_cache_lift | intros l].
  apply keeps_cache_mbind; [apply keeps_cache_print | intros _].
  cbn zeta.
  apply keeps_cache_mbind; [apply keeps_cache_lift | intros texts].
  destruct (0 <? len texts); [|apply keeps_cache_mret].
  apply keeps_cache_mbind; [apply keeps_cache_lift | intros h].
  apply keeps_cache_mbind; [apply keeps_cache_print | intros _].
  apply keeps_cache_print_all.
Qed.

Lemma keeps_cache_getGithubData (fuel : nat) (u tok : string)
    (add_criteria : json -> outcome bool) :
  keeps_cache (getGithubData fuel u tok add_criteria).
Proof.
  intros w. destruct (getGithubData fuel u tok add_criteria w) as [o w'] eqn:Hrun.
  by destruct (getGithubData_run _ _ _ _ _ _ _ Hrun) as (? & _).
Qed.

(** X17: no run of the script changes [User.cache], however it ends: the
    cache that starts empty stays empty, so every profile is fetched each
    time it is needed. *)
Theorem main_never_fills_cache (fuel : nat) (args : Args) (w : world) :
  User_cache (snd (main fuel args w)) = User_cache w.
Proof.
  revert w. change (keeps_cache (main fuel args)). unfold main. cbn zeta.
  apply keeps_cache_mbind; [apply keeps_cache_lift | intros open_url].
  apply keeps_cache_mbind; [apply keeps_cache_getGithubData | intros openPR].
  apply keeps_cache_mbind; [|intros buckets; apply keeps_cache_printStats].
  destruct (negb (open_only args)); [|apply keeps_cache_mret].
  apply keeps_cache_mbind; [apply keeps_cache_lift | intros closed_url].
  apply keeps_cache_mbind; [apply keeps_cache_getGithubData | intros closedPR].
  apply keeps_cache_lift.
Qed.

Lemma printStats_period_raises
    (days : Z) (openPR : list ScyllaPR) (abandonedPR mergedPR : option (list ScyllaPR))
    (w : world) :
  days <> 0 ->
  printStats (Some days) openPR abandonedPR mergedPR w = (Raise (KeyError "days"), w).
Proof.
  intros Hdays. unfold printStats, days_truthy.
  apply Z.eqb_neq in Hdays. rewrite Hdays. cbn [negb].
  unfold mbind, lift. by rewrite format_period_KeyError.
Qed.

Lemma main_with_period_run (fuel : nat) (args : Args) (days : Z) (w w' : world)
    (o : outcome unit) :
  period args = Some days ->
  days <> 0 ->
  main fuel args w = (o, w') ->
  (exists r, o = Abort r) /\ stdout w' = stdout w.
Proof.
  intros Hp Hd. unfold main. cbn zeta. rewrite Hp.
  unfold mbind at 1. unfold lift at 1.
  destruct (py_format open_pr_url _ _) as [open_url|r].
  2: { intros [= <- <-]. split; [by eexists | reflexivity]. }
  unfold mbind at 1.
  destruct (getGithubData fuel open_url (arg_token args) read_all w) as [o1 w1] eqn:Hopen.
  destruct (getGithubData_run _ _ _ _ _ _ _ Hopen) as (_ & Hout1 & _).
  destruct o1 as [openPR|r].
  2: { intros [= <- <-]. split; [by eexists | exact Hout1]. }
  unfold mbind at 1.
  destruct (negb (open_only args)).
  - unfold mbind at 1. unfold lift at 1.
    destruct (py_format closed_pr_url _ _) as [closed_url|r].
    2: { intros [= <- <-]. split; [by eexists | exact Hout1]. }
    unfold mbind at 1.
    destruct (getGithubData fuel closed_url (arg_token args) (shouldIncludePR args) w1)
      as [o2 w2] eqn:Hclosed.
    destruct (getGithubData_run _ _ _ _ _ _ _ Hclosed) as (_ & Hout2 & _).
    destruct o2 as [closedPR|r].
    2: { intros [= <- <-]. split; [by eexists | congruence]. }
    unfold lift at 1.
    destruct (classify closedPR [] []) as [buckets|r].
    2: { intros [= <- <-]. split; [by eexists | congruence]. }
    rewrite printStats_period_raises by exact Hd.
    intros [= <- <-]. split; [by eexists | congruence].
  - unfold mret at 1. rewrite printStats_period_raises by exact Hd.
    intros [= <- <-]. split; [by eexists | exact Hout1].
Qed.

(** X18: a run with a non-zero [--period] never ends normally and never
    writes a line of the report: when both fetches get through, the period
    header fails before the first [print]. *)
Theorem main_with_period_prints_nothing (fuel : nat) (args : Args) (days : Z) (w : world) :
  period args = Some days ->
  days <> 0 ->
  (exists r, fst (main fuel args w) = Abort r)
  /\ stdout (snd (main fuel args w)) = stdout w.
Proof.
  intros Hp Hd. destruct (main fuel args w) as [o w'] eqn:Hrun.
  exact (main_with_period_run fuel args days w w' o Hp Hd Hrun).
Qed.

End Whole.

Lemma main_with_period_prints_nothing_witness :
  (exists r,
     fst (main (R := scenario_runtime) 5
            {| repo := "scylla"; period := Some 30; arg_token := "secret"; open_only := false |}
            initial_world) = Abort r)
  /\ stdout
       (snd (main (R := scenario_runtime) 5
               {| repo := "scylla"; period := Some 30; arg_token := "secret";
                  open_only := false |}
               initial_world)) = [].
Proof.
  apply (main_with_period_prints_nothing (R := scenario_runtime) 5 _ 30 initial_world);
    [reflexivity | discriminate].
Defined.

(** ** The report without closed pull requests *)

Section OpenReport.
Context {R : Runtime}.

Lemma print_all_lines (l : list string) (w : world) :
  print_all l w = (Ret tt, with_stdout w l).
Proof.
  revert w. induction l as [|x l IH]; intros w; cbn [print_all].
  - unfold mret, with_stdout. destruct w. simpl. by rewrite app_nil_r.
  - by rewrite mbind_print, IH, with_stdout_app.
Qed.

Lemma format_open_count (n : Z) :
  py_format (NL +:+ "Currently Open Pull Requests: {m}" +:+ NL) [] [("m", FInt n)]
  = Ret (open_count_line n).
Proof.
  unfold py_format, open_count_line. eval_scan. cbn. by rewrite !append_empty_r.
Qed.

(** X19: without a period and without merged or abandoned pull requests the
    report is the line with the number of open pull requests and, when some
    of them need attention, the attention header followed by their texts,
    longest-open first; with none needing attention nothing more is
    printed. *)
Theorem printStats_open_report
    (days : option Z) (openPR : list ScyllaPR) (abandonedPR mergedPR : option (list ScyllaPR))
    (texts : list string) (w : world) :
  days_truthy days = false ->
  bucket_truthy mergedPR = false ->
  bucket_truthy abandonedPR = false ->
  attention_texts (sort_by_openFor_desc openPR) 15 = Ret texts ->
  printStats days openPR abandonedPR mergedPR w
  = (Ret tt,
     with_stdout w
       (open_count_line (len openPR)
        :: match texts with
           | [] => []
           | _ => attention_header :: texts
           end)).
Proof.
  intros Hdays Hmerged Habandoned Htexts. unfold printStats.
  rewrite Hdays, Hmerged, Habandoned. rewrite !mbind_mret.
  rewrite format_open_count, mbind_lift_Ret, mbind_print. cbn zeta.
  rewrite Htexts, mbind_lift_Ret.
  destruct texts as [|t texts]; [reflexivity|].
  change (0 <? len (t :: texts)) with true. cbn iota.
  eval_format. rewrite mbind_lift_Ret, mbind_print, print_all_lines, !with_stdout_app.
  reflexivity.
Qed.

End OpenReport.

Lemma printStats_open_report_witness :
  printStats (R := scenario_runtime) None
    [open_pr (ymd2ord 2024 2 25); open_pr (ymd2ord 2024 1 1); open_pr (ymd2ord 2023 1 1)]
    None None initial_world
  = (Ret tt,
     with_stdout initial_world
       [open_count_line 3; attention_header;
        header_text (R := scenario_runtime) "Alice" (open_pr (ymd2ord 2023 1 1))
        +:+ dates_text (R := scenario_runtime) (open_pr (ymd2ord 2023 1 1));
        header_text (R := scenario_runtime) "Alice" (open_pr (ymd2ord 2024 1 1))
        +:+ dates_text (R := scenario_runtime) (open_pr (ymd2ord 2024 1 1))]).
Proof.
  apply (printStats_open_report (R := scenario_runtime) None
           [open_pr (ymd2ord 2024 2 25); open_pr (ymd2ord 2024 1 1);
            open_pr (ymd2ord 2023 1 1)]
           None None
           [header_text (R := scenario_runtime) "Alice" (open_pr (ymd2ord 2023 1 1))
            +:+ dates_text (R := scenario_runtime) (open_pr (ymd2ord 2023 1 1));
            header_text (R := scenario_runtime) "Alice" (open_pr (ymd2ord 2024 1 1))
            +:+ dates_text (R := scenario_runtime) (open_pr (ymd2ord 2024 1 1))]
           initial_world); vm_compute; reflexivity.
Defined.
